(** * guv: the pyuv hub and the trampoline

    A shallow embedding of [guv/hubs/pyuv.py] (classes [Timer] and [Hub]) and
    of [guv/hubs/trampoline.py] (function [trampoline]).

    Python objects with identity (poll handles, timer handles, listeners) live
    in stores indexed by their allocation number; a reference is such a
    number.  Every hub method is a computation in a state-and-exception monad
    over the hub: an exception keeps the mutations made before it, as in
    Python.  The calls a method makes on the backend are appended to a journal
    kept beside the state, so that their order can be stated. *)

From stdpp Require Import base option list gmap strings.
From Stdlib Require Import ZArith Bool.

Local Open Scope Z_scope.

(** ** Exceptions, results *)

Inductive Exc :=
| AssertionError (msg : string)
| RuntimeError (msg : string)
| AttributeError (msg : string)
| HandleClosedError
| TimeoutExc
| KeyboardInterrupt
| OtherError (code : nat)
| NoSuchObject.
(* [NoSuchObject] is not a Python exception: it is what the embedding answers
   when a number designates no object of a store.  No reference handed out by
   the hub ever produces it. *)

#[global] Instance Exc_eq_dec : EqDecision Exc.
Proof. solve_decision. Defined.

Inductive Res (A : Type) :=
| Ok (a : A)
| Raise (e : Exc).
Arguments Ok {A} a.
Arguments Raise {A} e.

Definition is_Ok {A} (r : Res A) : bool :=
  match r with Ok _ => true | Raise _ => false end.

(** ** Greenlets, callables, values *)

(* [hub] is itself a greenlet ([AbstractHub] derives from [greenlet]); every
   other greenlet is a task. *)
Inductive Greenlet :=
| HubGreenlet
| TaskGreenlet (n : nat).

#[global] Instance Greenlet_eq_dec : EqDecision Greenlet.
Proof. solve_decision. Defined.

(* The callables that the two files pass around: the bound methods
   [g.switch] and [g.throw], the closure [_timeout] of [trampoline] (which
   captures [current]), and any other Python callable, known by name. *)
Inductive Callable :=
| switch_of (g : Greenlet)
| throw_of (g : Greenlet)
| _timeout (current : Greenlet)
| PyCallable (name : string).

#[global] Instance Callable_eq_dec : EqDecision Callable.
Proof. solve_decision. Defined.

Inductive Value :=
| VNone
| VInt (z : Z)
| VExc (e : Exc).

#[global] Instance Value_eq_dec : EqDecision Value.
Proof. solve_decision. Defined.

(** ** The backend: pyuv handles

    pyuv is not part of the repository.  Its handles are modelled by the
    attributes the hub reads and writes, with pyuv's rule that [start], [stop]
    and [close] on a closed handle raise [HandleClosedError]. *)

Module pyuv.

Definition UV_READABLE : Z := 1.
Definition UV_WRITABLE : Z := 2.

(* closure [pyuv_cb] of [Hub.add]: it captures [cb] only *)
Inductive PollCallback :=
| pyuv_cb_closure (cb : Callable).

(* closure [timer_callback] of [Hub.schedule_call_global]: it captures
   [cb], [args] (and [kwargs], always empty in this repository) *)
Inductive TimerCallback :=
| timer_callback_closure (cb : Callable) (args : list Value).

Record Poll := mkPoll {
  poll_fd : Z;
  poll_closed : bool;
  poll_active : bool;
  poll_ref : bool;
  poll_events : Z;
  poll_cb : option PollCallback
}.

Record Timer := mkTimer {
  timer_closed : bool;
  timer_active : bool;
  timer_timeout : Z;
  timer_repeat : Z;
  timer_cb : option TimerCallback
}.

(* pyuv.Poll(loop, fd) *)
Definition Poll_new (fd : Z) : Poll :=
  mkPoll fd false false true 0 None.

(* poll_handle.start(events, callback); with an empty event mask libuv only
   stops the watch, and the handle is not active *)
Definition Poll_start (events : Z) (cb : PollCallback) (p : Poll) : Res Poll :=
  if poll_closed p then Raise HandleClosedError
  else Ok (mkPoll (poll_fd p) false (negb (events =? 0)) (poll_ref p) events
                  (Some cb)).

(* handle.ref = b *)
Definition Poll_set_ref (b : bool) (p : Poll) : Poll :=
  mkPoll (poll_fd p) (poll_closed p) (poll_active p) b (poll_events p)
         (poll_cb p).

(* poll_handle.stop() *)
Definition Poll_stop (p : Poll) : Res Poll :=
  if poll_closed p then Raise HandleClosedError
  else Ok (mkPoll (poll_fd p) false false (poll_ref p) (poll_events p)
                  (poll_cb p)).

(* poll_handle.close() *)
Definition Poll_close (p : Poll) : Res Poll :=
  if poll_closed p then Raise HandleClosedError
  else Ok (mkPoll (poll_fd p) true false (poll_ref p) (poll_events p)
                  (poll_cb p)).

(* pyuv.Timer(loop) *)
Definition Timer_new : Timer := mkTimer false false 0 0 None.

(* timer_handle.start(callback, timeout, repeat) *)
Definition Timer_start (cb : TimerCallback) (timeout repeat : Z) (t : Timer)
  : Res Timer :=
  if timer_closed t then Raise HandleClosedError
  else Ok (mkTimer false true timeout repeat (Some cb)).

(* timer_handle.stop() *)
Definition Timer_stop (t : Timer) : Res Timer :=
  if timer_closed t then Raise HandleClosedError
  else Ok (mkTimer false false (timer_timeout t) (timer_repeat t)
                   (timer_cb t)).

(* timer_handle.close() *)
Definition Timer_close (t : Timer) : Res Timer :=
  if timer_closed t then Raise HandleClosedError
  else Ok (mkTimer true false (timer_timeout t) (timer_repeat t)
                   (timer_cb t)).

(* what libuv does to a timer when it expires, before calling back: a timer
   that does not repeat is stopped *)
Definition Timer_expire (t : Timer) : Timer :=
  if (timer_repeat t =? 0)
  then mkTimer (timer_closed t) false (timer_timeout t) (timer_repeat t)
               (timer_cb t)
  else t.

End pyuv.

(** ** Constants of [guv.const] *)

(** Modelled from the spec: [guv/const.py] is not among the sources.  The spec
    (section 3) has two distinct directions, READ and WRITE; [Hub.add]
    documents [evtype] as a [str]. *)
Definition READ : string := "read".
Definition WRITE : string := "write".

(** ** Listeners *)

(** Modelled from the spec: class [UvFdListener] of [guv/hubs/watchers.py] is
    not among the sources.  [Hub.add] builds it as
    [UvFdListener(evtype, fd, poll_handle)] and [Hub.remove] uses its attribute
    [handle]; the spec (section 3) gives a listener its direction, its
    descriptor and an opaque backend handle. *)
Record UvFdListener := mkListener {
  evtype : string;
  fd : Z;
  handle : option nat
}.

(** ** The hub *)

(* The calls made on the backend and on the hub's own objects. *)
Inductive Event :=
| EvPollNew (p : nat) (fd : Z)
| EvPollStart (p : nat) (events : Z)
| EvPollRef (p : nat) (b : bool)
| EvPollStop (p : nat)
| EvPollClose (p : nat)
| EvTimerNew (t : nat)
| EvTimerStart (t : nat) (timeout repeat : Z)
| EvTimerStop (t : nat)
| EvTimerClose (t : nat)
| EvRegister (l : nat)
| EvUnregister (l : nat)
| EvHandleNone (l : nat)
| EvCall (c : Callable) (args : list Value)
| EvSwitch
| EvLoopRun
| EvLoopStop.

#[global] Instance Event_eq_dec : EqDecision Event.
Proof. solve_decision. Defined.

Record HubState := mkHub {
  running : bool;
  stopping : bool;
  (* registry of active listeners, keyed by (descriptor, direction) *)
  listeners : gmap (Z * string) nat;
  (* the stores *)
  listener_objs : list UvFdListener;
  polls : list pyuv.Poll;
  timers : list pyuv.Timer;
  (* the journal, oldest call first *)
  journal : list Event
}.

Definition set_running (b : bool) (st : HubState) : HubState :=
  mkHub b (stopping st) (listeners st) (listener_objs st) (polls st)
        (timers st) (journal st).
Definition set_stopping (b : bool) (st : HubState) : HubState :=
  mkHub (running st) b (listeners st) (listener_objs st) (polls st)
        (timers st) (journal st).
Definition set_listeners (m : gmap (Z * string) nat) (st : HubState)
  : HubState :=
  mkHub (running st) (stopping st) m (listener_objs st) (polls st)
        (timers st) (journal st).
Definition set_listener_objs (ls : list UvFdListener) (st : HubState)
  : HubState :=
  mkHub (running st) (stopping st) (listeners st) ls (polls st)
        (timers st) (journal st).
Definition set_polls (ps : list pyuv.Poll) (st : HubState) : HubState :=
  mkHub (running st) (stopping st) (listeners st) (listener_objs st) ps
        (timers st) (journal st).
Definition set_timers (ts : list pyuv.Timer) (st : HubState) : HubState :=
  mkHub (running st) (stopping st) (listeners st) (listener_objs st)
        (polls st) ts (journal st).
Definition set_journal (j : list Event) (st : HubState) : HubState :=
  mkHub (running st) (stopping st) (listeners st) (listener_objs st)
        (polls st) (timers st) j.

(* Hub.__init__ *)
Definition Hub_init : HubState := mkHub false false ∅ [] [] [] [].

(** ** The monad *)

Definition M (A : Type) : Type := HubState -> Res A * HubState.

Definition ret {A} (a : A) : M A := fun st => (Ok a, st).

Definition raise {A} (e : Exc) : M A := fun st => (Raise e, st).

Definition bind {A B} (m : M A) (k : A -> M B) : M B :=
  fun st =>
    match m st with
    | (Ok a, st') => k a st'
    | (Raise e, st') => (Raise e, st')
    end.

Notation "x <- c1 ;; c2" := (bind c1 (fun x => c2))
  (at level 100, c1 at next level, right associativity).
Notation "c1 ;; c2" := (bind c1 (fun _ => c2))
  (at level 100, right associativity).

(* try: body finally: cleanup.  The cleanup runs on both exits of the body;
   an exception of the cleanup replaces the outcome of the body. *)
Definition try_finally {A} (body : M A) (cleanup : M unit) : M A :=
  fun st =>
    match body st with
    | (r, st') =>
        match cleanup st' with
        | (Ok _, st'') => (r, st'')
        | (Raise e, st'') => (Raise e, st'')
        end
    end.

(* assert c, msg *)
Definition assert (c : bool) (msg : string) : M unit :=
  if c then ret tt else raise (AssertionError msg).

Definition record (e : Event) : M unit :=
  fun st => (Ok tt, set_journal (journal st ++ [e]) st).

Definition get {A} (f : HubState -> A) : M A := fun st => (Ok (f st), st).

Definition modify (f : HubState -> HubState) : M unit :=
  fun st => (Ok tt, f st).

(* lift a result computed outside the monad *)
Definition lift {A} (r : Res A) : M A := fun st => (r, st).

(** ** Code that runs outside the hub

    A call of a Python callable, and the suspension of a task in
    [hub.switch()], hand control to code that is not in these two files.  Such
    a step is given by what it does to the hub meanwhile and by how control
    comes back: with a value, or with an exception. *)
Record External := mkExternal {
  ext_effect : HubState -> HubState;
  ext_result : Res Value
}.

Definition external (x : External) : M Value :=
  fun st => (ext_result x, ext_effect x st).

(* the call of [c] on [args] *)
Definition call (c : Callable) (args : list Value) (x : External) : M Value :=
  record (EvCall c args) ;; external x.

(* The closure of [trampoline]:
     def _timeout(exc): current.throw(exc)
   and every other callable. *)
Definition invoke (c : Callable) (args : list Value) (x : External) : M Value :=
  match c with
  | _timeout current => record (EvCall c args) ;; call (throw_of current) args x
  | _ => call c args x
  end.

(** ** Stores *)

Definition get_timer (t : nat) : M pyuv.Timer :=
  fun st =>
    match timers st !! t with
    | Some h => (Ok h, st)
    | None => (Raise NoSuchObject, st)
    end.

Definition put_timer (t : nat) (h : pyuv.Timer) : M unit :=
  modify (fun st => set_timers (<[t := h]> (timers st)) st).

Definition get_poll (p : nat) : M pyuv.Poll :=
  fun st =>
    match polls st !! p with
    | Some h => (Ok h, st)
    | None => (Raise NoSuchObject, st)
    end.

Definition put_poll (p : nat) (h : pyuv.Poll) : M unit :=
  modify (fun st => set_polls (<[p := h]> (polls st)) st).

Definition get_listener (l : nat) : M UvFdListener :=
  fun st =>
    match listener_objs st !! l with
    | Some o => (Ok o, st)
    | None => (Raise NoSuchObject, st)
    end.

Definition put_listener (l : nat) (o : UvFdListener) : M unit :=
  modify (fun st => set_listener_objs (<[l := o]> (listener_objs st)) st).

(* pyuv.Timer(self.loop) *)
Definition new_timer : M nat :=
  fun st =>
    let t := length (timers st) in
    (Ok t, set_journal (journal st ++ [EvTimerNew t])
             (set_timers (timers st ++ [pyuv.Timer_new]) st)).

(* pyuv.Poll(self.loop, fd) *)
Definition new_poll (fd : Z) : M nat :=
  fun st =>
    let p := length (polls st) in
    (Ok p, set_journal (journal st ++ [EvPollNew p fd])
             (set_polls (polls st ++ [pyuv.Poll_new fd]) st)).

(** Modelled from the spec: the constructor of [UvFdListener]
    ([guv/hubs/watchers.py], not among the sources), called as
    [UvFdListener(evtype, fd, poll_handle)].  Spec, section 3: the direction
    of a listener is READ or WRITE; a listener with another direction does not
    exist, and the constructor refuses it with an assertion. *)
Definition new_listener (evtype : string) (fd : Z) (poll_handle : nat) : M nat :=
  if bool_decide (evtype = READ) || bool_decide (evtype = WRITE)
  then fun st =>
         (Ok (length (listener_objs st)),
          set_listener_objs
            (listener_objs st ++ [mkListener evtype fd (Some poll_handle)]) st)
  else raise (AssertionError "evtype is neither READ nor WRITE").

(* the methods of a timer handle, on the handle [t] of the store *)
Definition timer_start (t : nat) (cb : pyuv.TimerCallback) (timeout repeat : Z)
  : M unit :=
  h <- get_timer t ;;
  record (EvTimerStart t timeout repeat) ;;
  h' <- lift (pyuv.Timer_start cb timeout repeat h) ;;
  put_timer t h'.

Definition timer_stop (t : nat) : M unit :=
  h <- get_timer t ;;
  record (EvTimerStop t) ;;
  h' <- lift (pyuv.Timer_stop h) ;;
  put_timer t h'.

Definition timer_close (t : nat) : M unit :=
  h <- get_timer t ;;
  record (EvTimerClose t) ;;
  h' <- lift (pyuv.Timer_close h) ;;
  put_timer t h'.

(* the methods of a poll handle *)
Definition poll_start (p : nat) (events : Z) (cb : pyuv.PollCallback) : M unit :=
  h <- get_poll p ;;
  record (EvPollStart p events) ;;
  h' <- lift (pyuv.Poll_start events cb h) ;;
  put_poll p h'.

Definition poll_set_ref (p : nat) (b : bool) : M unit :=
  h <- get_poll p ;;
  record (EvPollRef p b) ;;
  put_poll p (pyuv.Poll_set_ref b h).

Definition poll_stop (p : nat) : M unit :=
  h <- get_poll p ;;
  record (EvPollStop p) ;;
  h' <- lift (pyuv.Poll_stop h) ;;
  put_poll p h'.

Definition poll_close (p : nat) : M unit :=
  h <- get_poll p ;;
  record (EvPollClose p) ;;
  h' <- lift (pyuv.Poll_close h) ;;
  put_poll p h'.

(* listener.handle, then an attribute of it: None has no attribute *)
Definition listener_handle (l : nat) : M nat :=
  o <- get_listener l ;;
  match handle o with
  | Some p => ret p
  | None => raise (AttributeError "'NoneType' object has no attribute")
  end.

(* listener.handle = None *)
Definition clear_listener_handle (l : nat) : M unit :=
  o <- get_listener l ;;
  record (EvHandleNone l) ;;
  put_listener l (mkListener (evtype o) (fd o) None).

(** ** class Timer (pyuv.py, lines 12-22)

    A [Timer] object holds nothing but its [timer_handle]; it is identified
    with the reference to that handle. *)

(* Timer.cancel *)
Definition Timer_cancel (timer_handle : nat) : M unit :=
  h <- get_timer timer_handle ;;
  if negb (pyuv.timer_closed h)
  then timer_stop timer_handle ;; timer_close timer_handle
  else ret tt.

(** ** The registry of [AbstractHub] *)

(** Modelled from the spec: [AbstractHub._add_listener] is in
    [guv/hubs/abc.py], which is not among the sources.  Spec, sections 3 and
    4.1: the registry is keyed by (descriptor, direction); registering a second
    listener for the same (descriptor, direction) is a usage error. *)
Definition _add_listener (listener : nat) : M unit :=
  o <- get_listener listener ;;
  reg <- get listeners ;;
  match reg !! (fd o, evtype o) with
  | Some _ => raise (RuntimeError "a listener is already registered")
  | None =>
      record (EvRegister listener) ;;
      modify (set_listeners (<[(fd o, evtype o) := listener]> reg))
  end.

(** Modelled from the spec: [AbstractHub._remove_listener] is in
    [guv/hubs/abc.py], which is not among the sources.  Spec, section 4.1:
    removing a listener that is not present is a programming error and fails
    loudly (assertion). *)
Definition _remove_listener (listener : nat) : M unit :=
  o <- get_listener listener ;;
  reg <- get listeners ;;
  match reg !! (fd o, evtype o) with
  | Some l =>
      if bool_decide (l = listener)
      then record (EvUnregister listener) ;;
           modify (set_listeners (delete (fd o, evtype o) reg))
      else raise (AssertionError "listener not registered")
  | None => raise (AssertionError "listener not registered")
  end.

(** Modelled from the spec: [AbstractHub.switch] is in [guv/hubs/abc.py],
    which is not among the sources.  Spec, section 6: [suspend] blocks the
    calling task until it is resumed, with a value or with an exception. *)
Definition switch (x : External) : M Value :=
  record EvSwitch ;; external x.

(** ** class Hub (pyuv.py, lines 25-158) *)

(* Hub.abort *)
Definition abort : M unit :=
  r <- get running ;;
  (if r then modify (set_stopping true) else ret tt) ;;
  record EvLoopStop.

(* The closure [timer_callback] of [Hub.schedule_call_global]; [x] is what
   the call of [cb] does. *)
Definition timer_callback (cb : Callable) (args : list Value) (x : External)
  (timer_handle : nat) : M unit :=
  _ <- invoke cb args x ;;
  h <- get_timer timer_handle ;;
  if negb (pyuv.timer_closed h)
  then timer_stop timer_handle ;; timer_close timer_handle
  else ret tt.

(* Hub.schedule_call_global; the result is the [Timer] *)
Definition schedule_call_global (seconds : Z) (cb : Callable)
  (args : list Value) : M nat :=
  timer_handle <- new_timer ;;
  timer_start timer_handle (pyuv.timer_callback_closure cb args) seconds 0 ;;
  ret timer_handle.

(* The closure [pyuv_cb] of [Hub.add]; its three arguments are ignored. *)
Definition pyuv_cb (cb : Callable) (x : External)
  (poll_handle : nat) (events : Z) (errno : option Z) : M unit :=
  _ <- invoke cb [] x ;;
  ret tt.

(* Hub.add *)
Definition add (evtype : string) (fd : Z) (cb tb : Callable) : M nat :=
  poll_handle <- new_poll fd ;;
  listener <- new_listener evtype fd poll_handle ;;
  _add_listener listener ;;
  let flags := 0 in
  let flags :=
    if bool_decide (evtype = READ) then pyuv.UV_READABLE
    else if bool_decide (evtype = WRITE) then pyuv.UV_WRITABLE
    else flags in
  poll_start poll_handle flags (pyuv.pyuv_cb_closure cb) ;;
  ret listener.

(* Hub.remove *)
Definition remove (listener : nat) : M unit :=
  _remove_listener listener ;;
  (h <- listener_handle listener ;; poll_set_ref h false) ;;
  (h <- listener_handle listener ;; poll_stop h) ;;
  (h <- listener_handle listener ;; poll_close h) ;;
  clear_listener_handle listener.

(** *** The loop, seen from the hub

    While [self.loop.run(...)] runs, the backend dispatches callbacks, which
    resume tasks, which call methods of the hub.  What the hub sees of it is a
    sequence of calls of its own methods; an exception of such a call belongs
    to the task or callback that made it, not to the loop.  At the end
    [loop.run] returns, or an exception comes out of it. *)
#[warnings="-register-all"]
Inductive HubCall :=
| call_abort
| call_run (script : list HubCall) (exit : option Exc)
| call_add (evtype : string) (fd : Z) (cb tb : Callable)
| call_remove (listener : nat)
| call_schedule (seconds : Z) (cb : Callable) (args : list Value)
| call_cancel (timer : nat).

Definition swallow {A} (m : M A) : M unit :=
  fun st => (Ok tt, snd (m st)).

Definition leave (exit : option Exc) : M unit :=
  match exit with
  | None => ret tt
  | Some e => raise e
  end.

(* Hub.run, with the backend loop as a parameter *)
Definition run_with (loop_run : M unit) : M unit :=
  s <- get stopping ;;
  if s then ret tt
  else
    r <- get running ;;
    if r then raise (RuntimeError "The hub's runloop is already running")
    else
      try_finally
        (modify (set_running true) ;;
         modify (set_stopping false) ;;
         loop_run)
        (modify (set_running false) ;;
         modify (set_stopping false)).

Fixpoint perform (c : HubCall) : M unit :=
  match c with
  | call_abort => abort
  | call_run script exit =>
      run_with
        (record EvLoopRun ;;
         (fix dispatch (cs : list HubCall) : M unit :=
            match cs with
            | [] => ret tt
            | c' :: cs' => swallow (perform c') ;; dispatch cs'
            end) script ;;
         leave exit)
  | call_add evtype fd cb tb => _ <- add evtype fd cb tb ;; ret tt
  | call_remove listener => remove listener
  | call_schedule seconds cb args =>
      _ <- schedule_call_global seconds cb args ;; ret tt
  | call_cancel timer => Timer_cancel timer
  end.

Fixpoint dispatch (cs : list HubCall) : M unit :=
  match cs with
  | [] => ret tt
  | c :: cs' => swallow (perform c) ;; dispatch cs'
  end.

(* self.loop.run(pyuv.UV_RUN_DEFAULT) *)
Definition Loop_run (script : list HubCall) (exit : option Exc) : M unit :=
  record EvLoopRun ;; dispatch script ;; leave exit.

(* Hub.run *)
Definition run (script : list HubCall) (exit : option Exc) : M unit :=
  run_with (Loop_run script exit).

(* the hub as it is while the loop runs, after the calls [cs] *)
Definition during (cs : list HubCall) (st : HubState) : HubState :=
  snd ((modify (set_running true) ;;
        modify (set_stopping false) ;;
        record EvLoopRun ;;
        dispatch cs) st).

(** *** The backend calls back *)

(* a timer expires *)
Definition Loop_fire_timer (t : nat) (x : External) : M unit :=
  h <- get_timer t ;;
  match pyuv.timer_cb h with
  | Some (pyuv.timer_callback_closure cb args) =>
      if pyuv.timer_active h && negb (pyuv.timer_closed h)
      then put_timer t (pyuv.Timer_expire h) ;; timer_callback cb args x t
      else ret tt
  | None => ret tt
  end.

(* a poll handle reports [events], or an error [errno] on its descriptor *)
Definition Loop_fire_poll (p : nat) (events : Z) (errno : option Z)
  (x : External) : M unit :=
  h <- get_poll p ;;
  match pyuv.poll_cb h with
  | Some (pyuv.pyuv_cb_closure cb) =>
      if pyuv.poll_active h && negb (pyuv.poll_closed h)
      then pyuv_cb cb x p events errno
      else ret tt
  | None => ret tt
  end.

(** ** trampoline (trampoline.py, lines 8-62)

    [current] is [greenlet.getcurrent()], the hub is [get_hub()]; [x] is what
    happens between the suspension in [hub.switch()] and the resumption. *)
Definition trampoline (current : Greenlet) (fd : Z) (read write : bool)
  (timeout : option Z) (timeout_exc : Exc) (x : External) : M Value :=
  assert (negb (bool_decide (HubGreenlet = current)))
         "do not call blocking functions from the mainloop" ;;
  assert (xorb read write) "only one of read/write must be True" ;;
  timer <- match timeout with
           | Some seconds =>
               t <- schedule_call_global seconds (_timeout current)
                      [VExc timeout_exc] ;;
               ret (Some t)
           | None => ret None
           end ;;
  try_finally
    (listener <- (if read
                  then add READ fd (switch_of current) (throw_of current)
                  else add WRITE fd (switch_of current) (throw_of current)) ;;
     try_finally (switch x) (remove listener))
    (match timer with
     | Some t => Timer_cancel t
     | None => ret tt
     end).

(** ** States, steps and shapes used in the statements *)

(* [m] never changes the component [f] of the hub *)
Definition keeps {T : Type} (f : HubState -> T) {A} (m : M A) : Prop :=
  forall st, f (snd (m st)) = f st.

(* a hub that is running and has been asked to stop: [abort()] called from a
   callback while the loop runs *)
Definition hub_aborting : HubState :=
  snd (abort (set_running true Hub_init)).

(* a hub in the middle of its loop *)
Definition hub_looping : HubState := set_running true Hub_init.

(* the outcome of [loop.run] is the outcome of [run] *)
Definition outcome_of (exit : option Exc) : Res unit :=
  match exit with
  | None => Ok tt
  | Some e => Raise e
  end.

(* a timer handle after [stop()] and [close()] *)
Definition closed_timer (h : pyuv.Timer) : pyuv.Timer :=
  pyuv.mkTimer true false (pyuv.timer_timeout h) (pyuv.timer_repeat h)
               (pyuv.timer_cb h).

(* a callable that returns, and one that raises, neither touching the hub *)
Definition returns_none : External := mkExternal (fun st => st) (Ok VNone).
Definition raises (e : Exc) : External := mkExternal (fun st => st) (Raise e).

(* a timer is scheduled; then it fires and its callback returns *)
Definition hub_timer_fired : HubState :=
  snd ((t <- schedule_call_global 10 (PyCallable "tick") [] ;;
        Loop_fire_timer t returns_none) Hub_init).

(* a timer is scheduled and not yet fired *)
Definition hub_timer_pending : HubState :=
  snd (schedule_call_global 10 (PyCallable "tick") [] Hub_init).

(* a timer is scheduled; it fires and its callback raises *)
Definition hub_timer_raised : HubState :=
  snd ((t <- schedule_call_global 10 (PyCallable "tick") [] ;;
        Loop_fire_timer t (raises (OtherError 1))) Hub_init).

(* the event mask that [Hub.add] computes *)
Definition flags_of (evtype : string) : Z :=
  if bool_decide (evtype = READ) then pyuv.UV_READABLE
  else if bool_decide (evtype = WRITE) then pyuv.UV_WRITABLE
  else 0.

(* the hub after a successful [add] *)
Definition added (evtype : string) (fd : Z) (cb : Callable) (st : HubState)
  : HubState :=
  let l := length (listener_objs st) in
  let p := length (polls st) in
  mkHub (running st) (stopping st)
        (<[(fd, evtype) := l]> (listeners st))
        (listener_objs st ++ [mkListener evtype fd (Some p)])
        (polls st ++
           [pyuv.mkPoll fd false true true (flags_of evtype)
                        (Some (pyuv.pyuv_cb_closure cb))])
        (timers st)
        (journal st ++
           [EvPollNew p fd; EvRegister l; EvPollStart p (flags_of evtype)]).

(* a poll handle after [ref = False], [stop()] and [close()] *)
Definition closed_poll (h : pyuv.Poll) : pyuv.Poll :=
  pyuv.mkPoll (pyuv.poll_fd h) true false false (pyuv.poll_events h)
              (pyuv.poll_cb h).

(* the calls of a removal, in the order in which [Hub.remove] makes them *)
Definition teardown (l p : nat) : list Event :=
  [EvUnregister l; EvPollRef p false; EvPollStop p; EvPollClose p;
   EvHandleNone l].

(* the hub after a successful [remove] *)
Definition removed (l p : nat) (o : UvFdListener) (h : pyuv.Poll)
  (st : HubState) : HubState :=
  mkHub (running st) (stopping st)
        (delete (fd o, evtype o) (listeners st))
        (<[l := mkListener (evtype o) (fd o) None]> (listener_objs st))
        (<[p := closed_poll h]> (polls st))
        (timers st)
        (journal st ++ teardown l p).

(* a hub with one listener, as [Hub.add] leaves it *)
Definition hub_listening : HubState :=
  snd (add READ 5 (switch_of (TaskGreenlet 1)) (throw_of (TaskGreenlet 1))
         Hub_init).

(* EBADF, as the backend reports a closed descriptor *)
Definition EBADF : Z := 9.

(* the poll handle of [hub_listening] reports an error on its descriptor *)
Definition hub_poll_error : HubState :=
  snd (Loop_fire_poll 0 0 (Some EBADF) returns_none hub_listening).

(* the hub after [schedule_call_global] *)
Definition scheduled (seconds : Z) (cb : Callable) (args : list Value)
  (st : HubState) : HubState :=
  let t := length (timers st) in
  mkHub (running st) (stopping st) (listeners st) (listener_objs st)
        (polls st)
        (timers st ++
           [pyuv.mkTimer false true seconds 0
              (Some (pyuv.timer_callback_closure cb args))])
        (journal st ++ [EvTimerNew t; EvTimerStart t seconds 0]).

(* Between suspension and resumption the rest of the program leaves alone the
   registry, the listeners, the poll handles and the journal of this call; it
   may do anything to the flags and to the timers, but a timer handle does not
   disappear. *)
Definition undisturbed (x : External) : Prop :=
  forall st,
    listeners (ext_effect x st) = listeners st /\
    listener_objs (ext_effect x st) = listener_objs st /\
    polls (ext_effect x st) = polls st /\
    journal (ext_effect x st) = journal st /\
    (length (timers st) <= length (timers (ext_effect x st)))%nat.

(* the hub at the resumption of the task *)
Definition resumed (evtype : string) (fd : Z) (cb : Callable) (x : External)
  (st : HubState) : HubState :=
  ext_effect x
    (set_journal (journal (added evtype fd cb st) ++ [EvSwitch])
       (added evtype fd cb st)).

(* the hub after the inner [try ... finally] of [trampoline] *)
Definition waited (evtype : string) (fd : Z) (cb : Callable) (x : External)
  (st : HubState) : HubState :=
  removed (length (listener_objs st)) (length (polls st))
    (mkListener evtype fd (Some (length (polls st))))
    (pyuv.mkPoll fd false true true (flags_of evtype)
       (Some (pyuv.pyuv_cb_closure cb)))
    (resumed evtype fd cb x st).

(* the calls of a wait, from [hub.add] to the end of [hub.remove] *)
Definition wait_calls (evtype : string) (fd : Z) (l p : nat) : list Event :=
  [EvPollNew p fd; EvRegister l; EvPollStart p (flags_of evtype); EvSwitch]
    ++ teardown l p.

(* the timer of the call expires: the backend stops it and its callback
   throws the timeout exception into the task *)
Definition timer_fires (e : Exc) : External :=
  mkExternal (fun st => set_timers (pyuv.Timer_expire <$> timers st) st)
             (Raise e).

(** ** Further shapes: the flags, the loop, signals *)

(* the number of times the backend loop was started *)
Definition loop_runs (st : HubState) : nat :=
  count_occ Event_eq_dec (journal st) EvLoopRun.

(* [stopping] is set only on a running hub *)
Definition flags_ok (st : HubState) : Prop :=
  stopping st = true -> running st = true.

(* the callback of a timer cancels that very timer, then returns *)
Definition cancels_timer (t : nat) : External :=
  mkExternal (fun st => snd (Timer_cancel t st)) (Ok VNone).

(* two timers are scheduled *)
Definition hub_two_timers : HubState :=
  snd ((_ <- schedule_call_global 10 (PyCallable "tick") [] ;;
        schedule_call_global 20 (PyCallable "tock") [VInt 1]) Hub_init).

(* [schedule_call_global] followed by [cancel] of the timer it returned *)
Definition schedule_then_cancel (seconds : Z) (cb : Callable)
  (args : list Value) : M unit :=
  t <- schedule_call_global seconds cb args ;; Timer_cancel t.

(* [m] never makes a timer handle disappear *)
Definition keeps_timer_handles {A} (m : M A) : Prop :=
  forall st, (length (timers st) <= length (timers (snd (m st))))%nat.

(* the rest of the program closes the poll handles behind the hub's back and
   throws into the task *)
Definition closes_polls (e : Exc) : External :=
  mkExternal (fun st => set_polls (closed_poll <$> polls st) st) (Raise e).

(* the poll handle of [hub_listening] was closed behind the hub's back *)
Definition hub_poll_closed : HubState :=
  ext_effect (closes_polls KeyboardInterrupt) hub_listening.

(** ** Hub.signal_received (pyuv.py, lines 145-158)

    The signal handle is pyuv's; as for the other handles, [stop()] on a
    closed handle raises.  [Hub.__init__] creates it and starts it for
    SIGINT. *)

(* signal.SIGINT *)
Definition SIGINT : Z := 2.

Record SignalHandle := mkSignal {
  sig_closed : bool;
  sig_active : bool;
  sig_signum : Z
}.

(* sig = pyuv.Signal(self.loop); sig.start(self.signal_received, signum) *)
Definition Signal_started (signum : Z) : SignalHandle :=
  mkSignal false true signum.

(* sig_handle.stop() *)
Definition Signal_stop (s : SignalHandle) : Res SignalHandle :=
  if sig_closed s then Raise HandleClosedError
  else Ok (mkSignal false false (sig_signum s)).

(* Hub.signal_received.  [parent] is [self.greenlet.parent]; [x] is what
   happens between the throw into it and the return of control.  The signal
   handle is not an attribute of the hub: it is passed in, and passed back
   as the call leaves it. *)
Definition signal_received (parent : Greenlet) (x : External)
  (sig_handle : SignalHandle) (signo : Z) (st : HubState)
  : Res unit * (SignalHandle * HubState) :=
  if signo =? SIGINT then
    match Signal_stop sig_handle with
    | Raise e => (Raise e, (sig_handle, st))
    | Ok sig_handle' =>
        match (abort ;;
               call (throw_of parent) [VExc KeyboardInterrupt] x) st with
        | (Ok _, st') => (Ok tt, (sig_handle', st'))
        | (Raise e, st') => (Raise e, (sig_handle', st'))
        end
    end
  else (Ok tt, (sig_handle, st)).

(* the parent of the hub's greenlet takes the interrupt and does not come
   back *)
Definition interrupted : External :=
  mkExternal (fun st => st) (Raise KeyboardInterrupt).

(* a hub on which a task already waits for descriptor 5 to be readable, with
   a timer pending *)
Definition hub_busy : HubState :=
  snd (schedule_call_global 30 (_timeout (TaskGreenlet 1)) [VExc TimeoutExc]
         hub_listening).

(* a backend loop that sees the hub running, leaves [stopping] set and ends
   with an exception; had it not seen the hub running it would return *)
Definition loop_interrupted : M unit :=
  fun st =>
    if running st
    then (Raise KeyboardInterrupt, set_stopping true st)
    else (Ok tt, st).

(** * Properties *)

(** ** What a computation leaves alone *)

Section Keeps.
Context {T : Type} (f : HubState -> T).

Lemma keeps_ret {A} (a : A) : keeps f (ret a).
Proof. by intros st. Qed.

Lemma keeps_raise {A} (e : Exc) : keeps f (@raise A e).
Proof. by intros st. Qed.

Lemma keeps_lift {A} (r : Res A) : keeps f (lift r).
Proof. by intros st. Qed.

Lemma keeps_get {A} (g : HubState -> A) : keeps f (get g).
Proof. by intros st. Qed.

Lemma keeps_assert (c : bool) (msg : string) : keeps f (assert c msg).
Proof. by destruct c; intros st. Qed.

Lemma keeps_modify (g : HubState -> HubState) :
  (forall st, f (g st) = f st) -> keeps f (modify g).
Proof. intros H st. apply H. Qed.

Lemma keeps_bind {A B} (m : M A) (k : A -> M B) :
  keeps f m -> (forall a, keeps f (k a)) -> keeps f (bind m k).
Proof.
  intros Hm Hk st. unfold bind. specialize (Hm st).
  destruct (m st) as [[a|e] st1]; simpl in *; [|done].
  by rewrite Hk.
Qed.

Lemma keeps_try_finally {A} (body : M A) (cleanup : M unit) :
  keeps f body -> keeps f cleanup -> keeps f (try_finally body cleanup).
Proof.
  intros Hb Hc st. unfold try_finally. specialize (Hb st).
  destruct (body st) as [r st1]; simpl in *. specialize (Hc st1).
  destruct (cleanup st1) as [[u|e] st2]; simpl in *; congruence.
Qed.

Lemma keeps_swallow {A} (m : M A) : keeps f m -> keeps f (swallow m).
Proof. intros Hm st. apply Hm. Qed.

Lemma keeps_external (x : External) :
  (forall st, f (ext_effect x st) = f st) -> keeps f (external x).
Proof. intros H st. apply H. Qed.
End Keeps.

(* the flags are touched by [run] and [abort] only *)
Ltac keeps_step :=
  first
    [ apply keeps_ret | apply keeps_raise | apply keeps_lift | apply keeps_get
    | apply keeps_assert
    | apply keeps_modify; intros []; reflexivity
    | apply keeps_bind; [|intros ?]
    | apply keeps_try_finally
    | match goal with
      | |- keeps _ (if ?b then _ else _) => destruct b
      | |- keeps _ (match ?o with _ => _ end) => destruct o
      end ].

Ltac keeps_auto := repeat keeps_step.

Lemma keeps_running_record e : keeps running (record e).
Proof. by intros []. Qed.

Lemma keeps_running_get_timer t : keeps running (get_timer t).
Proof. intros st. unfold get_timer. by destruct (timers st !! t). Qed.

Lemma keeps_running_get_poll p : keeps running (get_poll p).
Proof. intros st. unfold get_poll. by destruct (polls st !! p). Qed.

Lemma keeps_running_get_listener l : keeps running (get_listener l).
Proof. intros st. unfold get_listener. by destruct (listener_objs st !! l). Qed.

Lemma keeps_running_new_timer : keeps running new_timer.
Proof. by intros []. Qed.

Lemma keeps_running_new_poll f : keeps running (new_poll f).
Proof. by intros []. Qed.

Lemma keeps_running_new_listener e f p : keeps running (new_listener e f p).
Proof.
  unfold new_listener. destruct (_ || _); [by intros [] | apply keeps_raise].
Qed.

Ltac keeps_running :=
  repeat first
    [ apply keeps_running_record | apply keeps_running_get_timer
    | apply keeps_running_get_poll | apply keeps_running_get_listener
    | apply keeps_running_new_timer | apply keeps_running_new_poll
    | apply keeps_running_new_listener
    | keeps_step ].

Lemma keeps_running_Timer_cancel t : keeps running (Timer_cancel t).
Proof.
  unfold Timer_cancel, timer_stop, timer_close, put_timer. keeps_running.
Qed.

Lemma keeps_running_schedule s cb args :
  keeps running (schedule_call_global s cb args).
Proof.
  unfold schedule_call_global, timer_start, put_timer. keeps_running.
Qed.

Lemma keeps_running_add e f cb tb : keeps running (add e f cb tb).
Proof.
  unfold add, _add_listener, poll_start, put_poll. keeps_running.
Qed.

Lemma keeps_running_remove l : keeps running (remove l).
Proof.
  unfold remove, _remove_listener, listener_handle, poll_set_ref, poll_stop,
    poll_close, clear_listener_handle, put_poll, put_listener.
  keeps_running.
Qed.

Lemma keeps_running_abort : keeps running abort.
Proof. unfold abort. keeps_running. Qed.

(* [run] leaves [running] as it found it, whatever the loop did: it returns
   at once when the hub is stopping, raises when it is running, and resets the
   flag it set otherwise *)
Lemma keeps_running_run_with loop_run : keeps running (run_with loop_run).
Proof.
  intros st. unfold run_with, bind, get, try_finally, modify. simpl.
  destruct (stopping st) eqn:Hs; [done|].
  destruct (running st) eqn:Hr; [done|].
  by destruct (loop_run _) as [[u|e] st1].
Qed.

Lemma keeps_running_perform c : keeps running (perform c).
Proof.
  destruct c; simpl.
  - apply keeps_running_abort.
  - apply keeps_running_run_with.
  - apply keeps_bind; [apply keeps_running_add | intros; apply keeps_ret].
  - apply keeps_running_remove.
  - apply keeps_bind; [apply keeps_running_schedule | intros; apply keeps_ret].
  - apply keeps_running_Timer_cancel.
Qed.

Lemma keeps_running_dispatch cs : keeps running (dispatch cs).
Proof.
  induction cs as [|c cs IH]; simpl; [apply keeps_ret|].
  apply keeps_bind; [|done].
  apply keeps_swallow, keeps_running_perform.
Qed.

Lemma perform_call_run script exit :
  perform (call_run script exit) = run script exit.
Proof. reflexivity. Qed.

(** ** Hub.run *)

(** C9: if [stopping] is true when [Hub.run()] is called, the call returns at
    once and silently.  It raises nothing, even if [running] is true as well;
    the hub, journal included, is the same afterwards, so the backend loop was
    not entered and both flags are unchanged. *)
Theorem run_stopping_returns (st : HubState) (script : list HubCall)
  (exit : option Exc) :
  stopping st = true ->
  run script exit st = (Ok tt, st).
Proof.
  intros Hs. unfold run, run_with, bind, get. by rewrite Hs.
Qed.

Lemma run_stopping_returns_witness :
  stopping hub_aborting = true /\ running hub_aborting = true /\
  run [call_abort] (Some (OtherError 1)) hub_aborting = (Ok tt, hub_aborting).
Proof.
  split; [reflexivity|]. split; [reflexivity|].
  apply (run_stopping_returns hub_aborting). reflexivity.
Defined.

(** C4, as stated, fails: on a hub that is running and stopping, [Hub.run()]
    raises nothing and returns. *)
Lemma run_while_running_counterexample :
  running hub_aborting = true /\
  fst (run [] None hub_aborting) = Ok tt.
Proof. split; reflexivity. Qed.

(** C4, amended: whenever [Hub.run()] is called while the hub is running and
    not stopping, it raises the reentrancy error and leaves the hub, and so
    both flags, unchanged. *)
Theorem run_while_running_raises (st : HubState) (script : list HubCall)
  (exit : option Exc) :
  running st = true ->
  stopping st = false ->
  run script exit st =
    (Raise (RuntimeError "The hub's runloop is already running"), st).
Proof.
  intros Hr Hs. unfold run, run_with, bind, get. by rewrite Hs, Hr.
Qed.

Lemma run_while_running_raises_witness :
  running hub_looping = true /\ stopping hub_looping = false /\
  run [call_abort] None hub_looping =
    (Raise (RuntimeError "The hub's runloop is already running"), hub_looping).
Proof.
  split; [reflexivity|]. split; [reflexivity|].
  apply (run_while_running_raises hub_looping); reflexivity.
Defined.

Lemma dispatch_Ok cs st : fst (dispatch cs st) = Ok tt.
Proof.
  revert st. induction cs as [|c cs IH]; intros st; simpl; [done|].
  unfold bind, swallow. apply IH.
Qed.

Lemma run_enters (st : HubState) script exit :
  stopping st = false -> running st = false ->
  run script exit st =
    (outcome_of exit, set_stopping false (set_running false (during script st))).
Proof.
  intros Hs Hr.
  unfold run, run_with, during, Loop_run, bind, get, try_finally, modify, record.
  rewrite Hs, Hr. simpl.
  match goal with |- context [dispatch script ?s] =>
    pose proof (dispatch_Ok script s) as Hd; destruct (dispatch script s) as [r st1]
  end.
  simpl in Hd. subst r. by destruct exit.
Qed.

(** C5: when [Hub.run()] enters the event loop (the hub is neither stopping
    nor running), the backend loop, whatever it is, is run on a hub on which
    [running] is true; whatever the loop does to the hub and however it ends,
    by returning or with an exception, its outcome is the outcome of [run()]
    and [running] and [stopping] are false when [run()] is left.  With the
    loop given as the calls made on the hub from it, [running] is true after
    any number of these calls. *)
Theorem run_sets_and_resets_flags (st : HubState) (loop_run : M unit)
  (script : list HubCall) (exit : option Exc) :
  stopping st = false ->
  running st = false ->
  let entered := set_stopping false (set_running true st) in
  running entered = true /\
  run_with loop_run st =
    (fst (loop_run entered),
     set_stopping false (set_running false (snd (loop_run entered)))) /\
  running (snd (run_with loop_run st)) = false /\
  stopping (snd (run_with loop_run st)) = false /\
  snd (run script exit st) =
    set_stopping false (set_running false (during script st)) /\
  (forall n, running (during (take n script) st) = true) /\
  fst (run script exit st) = outcome_of exit /\
  running (snd (run script exit st)) = false /\
  stopping (snd (run script exit st)) = false.
Proof.
  intros Hs Hr. cbv zeta.
  assert (Hrun : run_with loop_run st =
    (fst (loop_run (set_stopping false (set_running true st))),
     set_stopping false
       (set_running false
          (snd (loop_run (set_stopping false (set_running true st))))))).
  { unfold run_with, bind, get, try_finally, modify. rewrite Hs, Hr. simpl.
    by destruct (loop_run _) as [[u|e] st1]. }
  split; [done|]. split; [exact Hrun|]. rewrite Hrun.
  split; [done|]. split; [done|].
  rewrite run_enters by done.
  split; [done|]. split; [|done].
  intros n. unfold during.
  assert (Hk : keeps running
                 (record EvLoopRun ;; dispatch (take n script))).
  { apply keeps_bind; [apply keeps_running_record|].
    intros _. apply keeps_running_dispatch. }
  unfold bind at 1 2. unfold modify at 1 2. simpl.
  rewrite Hk. by destruct st.
Qed.

Lemma run_sets_and_resets_flags_witness :
  run_with loop_interrupted Hub_init = (Raise KeyboardInterrupt, Hub_init) /\
  (forall n, running
     (during (take n [call_abort; call_run [] None; call_abort]) Hub_init)
     = true) /\
  fst (run [call_abort; call_run [] None; call_abort]
         (Some KeyboardInterrupt) Hub_init) = Raise KeyboardInterrupt /\
  running (snd (run [call_abort; call_run [] None; call_abort]
                  (Some KeyboardInterrupt) Hub_init)) = false /\
  stopping (snd (run [call_abort; call_run [] None; call_abort]
                   (Some KeyboardInterrupt) Hub_init)) = false.
Proof.
  destruct (run_sets_and_resets_flags Hub_init loop_interrupted
              [call_abort; call_run [] None; call_abort]
              (Some KeyboardInterrupt))
    as (_ & H2 & _ & _ & _ & H6 & H7 & H8 & H9); [reflexivity | reflexivity |].
  split; [exact H2|]. split; [exact H6|]. split; [exact H7|].
  split; [exact H8 | exact H9].
Defined.

(** ** The stores *)

Lemma lookup_snoc {A} (l : list A) (x : A) : (l ++ [x]) !! length l = Some x.
Proof. by apply list_lookup_middle. Qed.

Lemma insert_snoc {A} (l : list A) (x y : A) :
  <[length l := y]> (l ++ [x]) = l ++ [y].
Proof.
  rewrite insert_app_r_alt by done. by rewrite Nat.sub_diag.
Qed.

Lemma app2 {A} (l : list A) (a b : A) : (l ++ [a]) ++ [b] = l ++ [a; b].
Proof. by rewrite <- app_assoc. Qed.

(** ** Timer.cancel *)

Lemma Timer_cancel_closed (st : HubState) (t : nat) (h : pyuv.Timer) :
  timers st !! t = Some h ->
  pyuv.timer_closed h = true ->
  Timer_cancel t st = (Ok tt, st).
Proof.
  intros Ht Hc. unfold Timer_cancel, bind, get_timer. by rewrite Ht, Hc.
Qed.

Lemma Timer_cancel_open (st : HubState) (t : nat) (h : pyuv.Timer) :
  timers st !! t = Some h ->
  pyuv.timer_closed h = false ->
  Timer_cancel t st =
    (Ok tt,
     set_journal (journal st ++ [EvTimerStop t; EvTimerClose t])
       (set_timers (<[t := closed_timer h]> (timers st)) st)).
Proof.
  intros Ht Hc. pose proof (lookup_lt_Some _ _ _ Ht) as Hlt.
  unfold Timer_cancel, timer_stop, timer_close, put_timer, bind, get_timer,
    record, lift, modify, pyuv.Timer_stop, pyuv.Timer_close.
  rewrite Ht, Hc. simpl. rewrite Ht, Hc. simpl.
  rewrite list_lookup_insert_eq by done. simpl.
  rewrite list_insert_insert_eq, app2. by destruct st.
Qed.

(* whatever the handle, [cancel] returns and leaves it closed; it touches
   neither the registry nor the listeners nor the poll handles *)
Lemma Timer_cancel_closes (st : HubState) (t : nat) (h : pyuv.Timer) :
  timers st !! t = Some h ->
  fst (Timer_cancel t st) = Ok tt /\
  (exists h', timers (snd (Timer_cancel t st)) !! t = Some h' /\
              pyuv.timer_closed h' = true) /\
  listeners (snd (Timer_cancel t st)) = listeners st /\
  listener_objs (snd (Timer_cancel t st)) = listener_objs st /\
  polls (snd (Timer_cancel t st)) = polls st /\
  exists evs, journal (snd (Timer_cancel t st)) = journal st ++ evs /\
              forall e, e ∈ evs -> e = EvTimerStop t \/ e = EvTimerClose t.
Proof.
  intros Ht. destruct (pyuv.timer_closed h) eqn:Hc.
  - rewrite (Timer_cancel_closed st t h) by done. simpl.
    repeat split; try done; [by exists h|].
    exists []. split; [by rewrite app_nil_r|]. by intros e He%elem_of_nil.
  - rewrite (Timer_cancel_open st t h) by done.
    pose proof (lookup_lt_Some _ _ _ Ht) as Hlt.
    destruct st; simpl in *. repeat split; try done.
    + exists (closed_timer h). by rewrite list_lookup_insert_eq.
    + eexists. split; [done|]. intros e He.
      apply elem_of_cons in He as [->|He]; [by left|].
      apply elem_of_cons in He as [->|He]; [by right|].
      by apply elem_of_nil in He.
Qed.

Lemma invoke_result c args x st : fst (invoke c args x st) = ext_result x.
Proof. by destruct c. Qed.

(* the cleanup of [timer_callback] is the body of [Timer.cancel] *)
Lemma timer_callback_cancel cb args x t :
  timer_callback cb args x t = (_ <- invoke cb args x ;; Timer_cancel t).
Proof. reflexivity. Qed.

(** C6, as stated, fails: a timer has fired, its callback raised, and its
    handle is open; [Timer.cancel] on it is not a no-op: it stops and closes
    the handle. *)
Lemma Timer_cancel_fired_counterexample :
  EvCall (PyCallable "tick") [] ∈ journal hub_timer_raised /\
  Timer_cancel 0 hub_timer_raised <> (Ok tt, hub_timer_raised) /\
  journal (snd (Timer_cancel 0 hub_timer_raised)) =
    journal hub_timer_raised ++ [EvTimerStop 0; EvTimerClose 0].
Proof.
  split; [|split; [|reflexivity]].
  - apply list_elem_of_In. vm_compute. auto.
  - intros H. apply (f_equal (fun r => length (journal (snd r)))) in H.
    vm_compute in H. discriminate H.
Qed.

(** C6, amended: [Timer.cancel] on a timer whose handle is closed, because
    the timer was cancelled or because it fired and its callback returned, is
    a no-op.  On any timer [cancel] raises nothing, and a second [cancel] has
    no further effect. *)
Theorem Timer_cancel_idempotent (st : HubState) (t : nat) (h : pyuv.Timer) :
  timers st !! t = Some h ->
  (pyuv.timer_closed h = true -> Timer_cancel t st = (Ok tt, st)) /\
  fst (Timer_cancel t st) = Ok tt /\
  Timer_cancel t (snd (Timer_cancel t st)) = (Ok tt, snd (Timer_cancel t st)) /\
  (forall cb args x v,
      ext_result x = Ok v ->
      is_Some (timers (snd (invoke cb args x st)) !! t) ->
      fst (timer_callback cb args x t st) = Ok tt /\
      Timer_cancel t (snd (timer_callback cb args x t st)) =
        (Ok tt, snd (timer_callback cb args x t st))).
Proof.
  intros Ht. split; [by apply Timer_cancel_closed|].
  destruct (Timer_cancel_closes st t h Ht) as (Hok & (h' & Ht' & Hc') & _).
  split; [done|]. split; [by apply (Timer_cancel_closed _ t h')|].
  intros cb args x v Hv [h1 Hh1].
  rewrite timer_callback_cancel. unfold bind.
  pose proof (invoke_result cb args x st) as Hr.
  destruct (invoke cb args x st) as [r st1]. simpl in Hr, Hh1.
  rewrite Hr, Hv.
  destruct (Timer_cancel_closes st1 t h1 Hh1) as (Hok1 & (h2 & Hh2 & Hc2) & _).
  split; [done|]. by apply (Timer_cancel_closed _ t h2).
Qed.

Lemma Timer_cancel_idempotent_witness :
  (* after it fired and its callback returned *)
  Timer_cancel 0 hub_timer_fired = (Ok tt, hub_timer_fired) /\
  Timer_cancel 0 (snd (timer_callback (PyCallable "tick") [] returns_none 0
                         hub_timer_pending)) =
    (Ok tt, snd (timer_callback (PyCallable "tick") [] returns_none 0
                   hub_timer_pending)) /\
  (* before: the first cancel closes, the second does nothing *)
  fst (Timer_cancel 0 hub_timer_pending) = Ok tt /\
  Timer_cancel 0 (snd (Timer_cancel 0 hub_timer_pending)) =
    (Ok tt, snd (Timer_cancel 0 hub_timer_pending)).
Proof.
  destruct (Timer_cancel_idempotent hub_timer_fired 0
              (pyuv.mkTimer true false 10 0
                 (Some (pyuv.timer_callback_closure (PyCallable "tick") []))))
    as (H1 & _); [reflexivity|].
  destruct (Timer_cancel_idempotent hub_timer_pending 0
              (pyuv.mkTimer false true 10 0
                 (Some (pyuv.timer_callback_closure (PyCallable "tick") []))))
    as (_ & H2 & H3 & H4); [reflexivity|].
  destruct (H4 (PyCallable "tick") [] returns_none VNone) as [_ H5];
    [reflexivity | eexists; reflexivity |].
  split; [by apply H1|]. split; [exact H5|]. split; [exact H2 | exact H3].
Defined.

(** ** trampoline: the assertions *)

(** C7: a call of [trampoline] from the hub's own greenlet, or with [read]
    and [write] both true or both false, fails with an assertion error, and
    the hub, journal included, is as before: no timer was scheduled, no
    listener registered, and the hub was not entered. *)
Theorem trampoline_asserts (st : HubState) (current : Greenlet) (fd : Z)
  (read write : bool) (timeout : option Z) (timeout_exc : Exc) (x : External) :
  current = HubGreenlet \/ read = write ->
  exists msg,
    trampoline current fd read write timeout timeout_exc x st =
      (Raise (AssertionError msg), st).
Proof.
  intros [-> | ->].
  - eexists. reflexivity.
  - unfold trampoline. destruct (bool_decide (HubGreenlet = current)).
    + eexists. reflexivity.
    + eexists. unfold bind at 1. simpl. unfold bind at 1.
      by rewrite xorb_nilpotent.
Qed.

Lemma trampoline_asserts_witness :
  exists msg,
    trampoline HubGreenlet 5 true false (Some 10) TimeoutExc returns_none
      hub_timer_pending =
      (Raise (AssertionError msg), hub_timer_pending).
Proof.
  apply (trampoline_asserts hub_timer_pending HubGreenlet 5 true false
           (Some 10) TimeoutExc returns_none).
  left. reflexivity.
Defined.

(** ** The timer callback *)

(** C3, on the code: when the scheduled callback raises, [timer_callback] is
    left by the exception before its cleanup; the handle of the timer that
    fired is not closed and neither [stop] nor [close] was called on it. *)
Theorem timer_callback_raise_skips_cleanup :
  fst ((t <- schedule_call_global 10 (PyCallable "tick") [] ;;
        Loop_fire_timer t (raises (OtherError 1))) Hub_init)
    = Raise (OtherError 1) /\
  (pyuv.timer_closed <$> (timers hub_timer_raised !! 0%nat)) = Some false /\
  (EvTimerStop 0 ∉ journal hub_timer_raised) /\
  (EvTimerClose 0 ∉ journal hub_timer_raised) /\
  (* whereas after a callback that returns the handle is closed *)
  (pyuv.timer_closed <$> (timers hub_timer_fired !! 0%nat)) = Some true.
Proof.
  repeat split; try reflexivity.
  - intros H. vm_compute in H. by repeat (apply elem_of_cons in H as [?|H]; [done|]);
      apply elem_of_nil in H.
  - intros H. vm_compute in H. by repeat (apply elem_of_cons in H as [?|H]; [done|]);
      apply elem_of_nil in H.
Qed.

(** ** Hub.add *)

(* READ and WRITE are the directions that the constructor accepts, and
   their event masks are not empty *)
Lemma direction_accepted (evtype : string) :
  evtype = READ \/ evtype = WRITE ->
  bool_decide (evtype = READ) || bool_decide (evtype = WRITE) = true /\
  negb (flags_of evtype =? 0) = true.
Proof. by intros [-> | ->]. Qed.

Lemma direction_of_flag (read : bool) :
  (if read then READ else WRITE) = READ \/
  (if read then READ else WRITE) = WRITE.
Proof. destruct read; auto. Qed.

Lemma add_free (st : HubState) (evtype : string) (fd : Z) (cb tb : Callable) :
  evtype = READ \/ evtype = WRITE ->
  listeners st !! (fd, evtype) = None ->
  add evtype fd cb tb st =
    (Ok (length (listener_objs st)), added evtype fd cb st).
Proof.
  intros Hdir Hfree. destruct (direction_accepted evtype Hdir) as [Hok Hact].
  destruct st as [r s reg objs ps ts j]. simpl in Hfree.
  unfold add, new_poll, new_listener, _add_listener, poll_start, put_poll,
    get_listener, get_poll, bind, get, record, modify, lift, ret, added,
    pyuv.Poll_start.
  rewrite Hok. fold (flags_of evtype).
  simpl. rewrite lookup_snoc. simpl. rewrite Hfree. simpl.
  rewrite lookup_snoc. simpl. rewrite insert_snoc.
  fold (flags_of evtype). rewrite Hact.
  rewrite <- !app_assoc. reflexivity.
Qed.

Lemma add_taken (st : HubState) (evtype : string) (fd : Z) (cb tb : Callable)
  (l : nat) :
  evtype = READ \/ evtype = WRITE ->
  listeners st !! (fd, evtype) = Some l ->
  fst (add evtype fd cb tb st) =
    Raise (RuntimeError "a listener is already registered") /\
  listeners (snd (add evtype fd cb tb st)) = listeners st.
Proof.
  intros Hdir Htaken. destruct (direction_accepted evtype Hdir) as [Hok _].
  destruct st as [r s reg objs ps ts j]. simpl in Htaken.
  unfold add, new_poll, new_listener, _add_listener, bind, get_listener, get.
  rewrite Hok.
  simpl. rewrite lookup_snoc. simpl. by rewrite Htaken.
Qed.




(** ** Hub.remove *)

Lemma remove_registered (st : HubState) (l p : nat) (o : UvFdListener)
  (h : pyuv.Poll) :
  listener_objs st !! l = Some o ->
  handle o = Some p ->
  listeners st !! (fd o, evtype o) = Some l ->
  polls st !! p = Some h ->
  pyuv.poll_closed h = false ->
  remove l st = (Ok tt, removed l p o h st).
Proof.
  intros Ho Hh Hreg Hp Hc.
  pose proof (lookup_lt_Some _ _ _ Hp) as Hlt.
  destruct st as [r s reg objs ps ts j]. simpl in *.
  unfold remove, _remove_listener, listener_handle, poll_set_ref, poll_stop,
    poll_close, clear_listener_handle, put_poll, put_listener, get_listener,
    get_poll, bind, get, record, modify, lift, ret, removed, teardown,
    pyuv.Poll_stop, pyuv.Poll_close, pyuv.Poll_set_ref.
  simpl. rewrite Ho. simpl. rewrite Hreg. simpl.
  rewrite bool_decide_eq_true_2 by done. simpl.
  rewrite Ho, Hh. simpl. rewrite Hp. simpl.
  rewrite Ho, Hh. simpl. rewrite list_lookup_insert_eq by done. simpl.
  rewrite Hc. simpl.
  rewrite Ho, Hh. simpl. rewrite list_lookup_insert_eq
    by (by rewrite length_insert). simpl.
  rewrite Ho. simpl.
  rewrite !list_insert_insert_eq, <- !app_assoc. reflexivity.
Qed.

(* once removed, a listener cannot be removed again: its key is free, or
   taken by another listener, and its handle is None *)
Lemma remove_handle_None (st : HubState) (l : nat) (o : UvFdListener) :
  listener_objs st !! l = Some o ->
  handle o = None ->
  is_Ok (fst (remove l st)) = false.
Proof.
  intros Ho Hh. destruct st as [r s reg objs ps ts j]. simpl in *.
  unfold remove, _remove_listener, listener_handle, get_listener, bind, get,
    record, modify.
  simpl. rewrite Ho. simpl.
  destruct (reg !! (fd o, evtype o)) as [l'|]; [|done]. simpl.
  destruct (bool_decide (l' = l)); [|done]. simpl.
  by rewrite Ho, Hh.
Qed.

(** C8: for a registered listener whose poll handle is open, [Hub.remove]
    takes the listener out of the registry and then calls the backend in this
    order: [ref = False] on the handle, [stop()], [close()], and last
    [listener.handle = None].  Afterwards the handle is closed, the listener's
    [handle] is None, and a second removal of the listener fails. *)
Theorem remove_teardown_order (st : HubState) (l p : nat) (o : UvFdListener)
  (h : pyuv.Poll) :
  listener_objs st !! l = Some o ->
  handle o = Some p ->
  listeners st !! (fd o, evtype o) = Some l ->
  polls st !! p = Some h ->
  pyuv.poll_closed h = false ->
  let st' := snd (remove l st) in
  fst (remove l st) = Ok tt /\
  journal st' =
    journal st ++ [EvUnregister l; EvPollRef p false; EvPollStop p;
                   EvPollClose p; EvHandleNone l] /\
  (handle <$> (listener_objs st' !! l)) = Some None /\
  (pyuv.poll_closed <$> (polls st' !! p)) = Some true /\
  listeners st' = delete (fd o, evtype o) (listeners st) /\
  is_Ok (fst (remove l st')) = false.
Proof.
  intros Ho Hh Hreg Hp Hc. cbv zeta.
  rewrite (remove_registered st l p o h) by done. cbn [fst snd].
  pose proof (lookup_lt_Some _ _ _ Hp) as Hltp.
  pose proof (lookup_lt_Some _ _ _ Ho) as Hlto.
  assert (Hl' : listener_objs (removed l p o h st) !! l
                = Some (mkListener (evtype o) (fd o) None)).
  { unfold removed. simpl. by rewrite list_lookup_insert_eq. }
  split; [done|]. split; [done|]. split; [by rewrite Hl'|].
  split; [unfold removed; simpl; by rewrite list_lookup_insert_eq|].
  split; [done|].
  by apply (remove_handle_None _ l _ Hl').
Qed.

Lemma remove_teardown_order_witness :
  fst (remove 0 hub_listening) = Ok tt /\
  journal (snd (remove 0 hub_listening)) =
    journal hub_listening ++
      [EvUnregister 0; EvPollRef 0 false; EvPollStop 0; EvPollClose 0;
       EvHandleNone 0] /\
  is_Ok (fst (remove 0 (snd (remove 0 hub_listening)))) = false.
Proof.
  destruct (remove_teardown_order hub_listening 0 0
              (mkListener READ 5 (Some 0%nat))
              (pyuv.mkPoll 5 false true true 1
                 (Some (pyuv.pyuv_cb_closure (switch_of (TaskGreenlet 1))))))
    as (H1 & H2 & _ & _ & _ & H6); try reflexivity.
  split; [exact H1|]. split; [exact H2 | exact H6].
Defined.

(** ** The poll callback *)

(* [Hub.add] makes no use of its argument [tb] *)
Lemma add_ignores_tb (st : HubState) (evtype : string) (fd : Z)
  (cb tb tb' : Callable) :
  add evtype fd cb tb st = add evtype fd cb tb' st.
Proof. reflexivity. Qed.

(* the closure handed to the backend calls [cb], whatever it is told *)
Lemma pyuv_cb_ignores_errno (st : HubState) (cb : Callable) (x : External)
  (p : nat) (events events' : Z) (errno errno' : option Z) :
  pyuv_cb cb x p events errno st = pyuv_cb cb x p events' errno' st.
Proof. reflexivity. Qed.

(** C2, on the code: a listener is added for descriptor 5 with the
    ready-callback [switch] and the close-callback [throw] of a task; the
    backend then reports an error on the descriptor.  The hub calls the
    ready-callback, with no argument, and does not call the close-callback. *)
Theorem poll_error_calls_ready_callback :
  journal hub_poll_error =
    journal hub_listening ++ [EvCall (switch_of (TaskGreenlet 1)) []] /\
  (forall args, EvCall (throw_of (TaskGreenlet 1)) args ∉ journal hub_poll_error).
Proof.
  split; [reflexivity|].
  intros args H. vm_compute in H.
  by repeat (apply elem_of_cons in H as [?|H]; [done|]); apply elem_of_nil in H.
Qed.

(** ** Hub.schedule_call_global *)

Lemma schedule_call_global_eq (st : HubState) (seconds : Z) (cb : Callable)
  (args : list Value) :
  schedule_call_global seconds cb args st =
    (Ok (length (timers st)), scheduled seconds cb args st).
Proof.
  destruct st as [r s reg objs ps ts j].
  unfold schedule_call_global, new_timer, timer_start, put_timer, get_timer,
    bind, record, modify, lift, ret, scheduled.
  simpl. rewrite lookup_snoc. simpl. rewrite insert_snoc, <- app_assoc.
  reflexivity.
Qed.

(** ** trampoline: the cleanup *)

Lemma wait_eq (st : HubState) (evtype : string) (fd : Z) (cb tb : Callable)
  (x : External) :
  evtype = READ \/ evtype = WRITE ->
  listeners st !! (fd, evtype) = None ->
  undisturbed x ->
  (listener <- add evtype fd cb tb ;;
   try_finally (switch x) (remove listener)) st =
    (ext_result x, waited evtype fd cb x st).
Proof.
  intros Hdir Hfree Hx. unfold bind at 1. rewrite add_free by done.
  unfold try_finally, switch, bind, record, external. cbv beta iota.
  change (ext_effect x _) with (resumed evtype fd cb x st).
  destruct (Hx (set_journal (journal (added evtype fd cb st) ++ [EvSwitch])
                  (added evtype fd cb st))) as (Hl & Ho & Hp & Hj & Ht).
  fold (resumed evtype fd cb x st) in Hl, Ho, Hp, Hj, Ht.
  rewrite (remove_registered (resumed evtype fd cb x st)
             (length (listener_objs st)) (length (polls st))
             (mkListener evtype fd (Some (length (polls st))))
             (pyuv.mkPoll fd false true true (flags_of evtype)
                (Some (pyuv.pyuv_cb_closure cb)))); [done| | | | |].
  - rewrite Ho. simpl. apply lookup_snoc.
  - done.
  - rewrite Hl. simpl. apply lookup_insert_eq.
  - rewrite Hp. simpl. apply lookup_snoc.
  - done.
Qed.

Lemma waited_facts (st : HubState) (evtype : string) (fd : Z) (cb : Callable)
  (x : External) :
  listeners st !! (fd, evtype) = None ->
  undisturbed x ->
  let l := length (listener_objs st) in
  let p := length (polls st) in
  let w := waited evtype fd cb x st in
  listeners w = listeners st /\
  listener_objs w !! l = Some (mkListener evtype fd None) /\
  (pyuv.poll_closed <$> (polls w !! p)) = Some true /\
  journal w = journal st ++ wait_calls evtype fd l p /\
  (length (timers st) <= length (timers w))%nat.
Proof.
  intros Hfree Hx. cbv zeta.
  destruct (Hx (set_journal (journal (added evtype fd cb st) ++ [EvSwitch])
                  (added evtype fd cb st))) as (Hl & Ho & Hp & Hj & Ht).
  change (ext_effect x _) with (resumed evtype fd cb x st) in Hl, Ho, Hp, Hj, Ht.
  unfold waited, removed. cbn [listeners listener_objs polls journal timers].
  rewrite Hl, Ho, Hp, Hj.
  split; [|split; [|split; [|split]]].
  - simpl. by apply delete_insert_id.
  - simpl. rewrite list_lookup_insert_eq; [done|].
    rewrite length_app. simpl. lia.
  - simpl. rewrite list_lookup_insert_eq; [done|].
    rewrite length_app. simpl. lia.
  - simpl. unfold wait_calls. by rewrite <- !app_assoc.
  - exact Ht.
Qed.

Lemma count_occ_others (evs : list Event) (a b e : Event) :
  (forall e', e' ∈ evs -> e' = a \/ e' = b) ->
  e <> a -> e <> b ->
  count_occ Event_eq_dec evs e = 0%nat.
Proof.
  intros Hevs Ha Hb. apply count_occ_not_In. intros Hin.
  apply list_elem_of_In in Hin. by destruct (Hevs e Hin).
Qed.

Lemma count_occ_wait_calls (evtype : string) (fd : Z) (l p : nat) :
  count_occ Event_eq_dec (wait_calls evtype fd l p) (EvRegister l) = 1%nat /\
  count_occ Event_eq_dec (wait_calls evtype fd l p) (EvUnregister l) = 1%nat /\
  count_occ Event_eq_dec (wait_calls evtype fd l p) (EvPollClose p) = 1%nat.
Proof.
  unfold wait_calls, teardown. cbn [app].
  repeat split;
    repeat first [ rewrite count_occ_cons_eq by reflexivity
                 | rewrite count_occ_cons_neq by congruence ];
    reflexivity.
Qed.

Lemma bind_eq {A B} (m : M A) (k : A -> M B) (st st1 : HubState) (a : A) :
  m st = (Ok a, st1) -> bind m k st = k a st1.
Proof. intros H. unfold bind. by rewrite H. Qed.

Lemma try_finally_eq {A} (body : M A) (cleanup : M unit)
  (st st1 st2 : HubState) (r : Res A) (u : unit) :
  body st = (r, st1) ->
  cleanup st1 = (Ok u, st2) ->
  try_finally body cleanup st = (r, st2).
Proof. intros Hb Hc. unfold try_finally. by rewrite Hb, Hc. Qed.

(* [trampoline] without a timeout *)
Lemma trampoline_eq_None (st : HubState) (current : Greenlet) (fd : Z)
  (read write : bool) (timeout_exc : Exc) (x : External) :
  current <> HubGreenlet ->
  read <> write ->
  listeners st !! (fd, if read then READ else WRITE) = None ->
  undisturbed x ->
  trampoline current fd read write None timeout_exc x st =
    (ext_result x,
     waited (if read then READ else WRITE) fd (switch_of current) x st).
Proof.
  intros Hcur Hrw Hfree Hx. unfold trampoline.
  rewrite (bool_decide_eq_false_2 (HubGreenlet = current)) by congruence.
  replace (xorb read write) with true by (by destruct read, write).
  erewrite bind_eq by reflexivity.
  erewrite bind_eq by reflexivity.
  erewrite bind_eq by reflexivity.
  eapply try_finally_eq; [|reflexivity].
  destruct read; apply wait_eq; auto.
Qed.

(* [trampoline] with a timeout: the last step is the [cancel] of the timer *)
Lemma trampoline_eq_Some (st : HubState) (current : Greenlet) (fd : Z)
  (read write : bool) (seconds : Z) (timeout_exc : Exc) (x : External) :
  current <> HubGreenlet ->
  read <> write ->
  listeners st !! (fd, if read then READ else WRITE) = None ->
  undisturbed x ->
  trampoline current fd read write (Some seconds) timeout_exc x st =
    (ext_result x,
     snd (Timer_cancel (length (timers st))
            (waited (if read then READ else WRITE) fd (switch_of current) x
               (scheduled seconds (_timeout current) [VExc timeout_exc] st)))).
Proof.
  intros Hcur Hrw Hfree Hx. unfold trampoline.
  rewrite (bool_decide_eq_false_2 (HubGreenlet = current)) by congruence.
  replace (xorb read write) with true by (by destruct read, write).
  erewrite bind_eq by reflexivity.
  erewrite bind_eq by reflexivity.
  erewrite bind_eq
    by (erewrite bind_eq by apply schedule_call_global_eq; reflexivity).
  set (s1 := scheduled seconds (_timeout current) [VExc timeout_exc] st).
  set (w := waited (if read then READ else WRITE) fd (switch_of current) x s1).
  assert (Hfree1 : listeners s1 !! (fd, if read then READ else WRITE) = None)
    by done.
  destruct (waited_facts s1 (if read then READ else WRITE) fd
              (switch_of current) x Hfree1 Hx) as (_ & _ & _ & _ & Hlen).
  fold w in Hlen.
  assert (Hlt : (length (timers st) < length (timers w))%nat).
  { eapply Nat.lt_le_trans; [|exact Hlen].
    unfold s1, scheduled. simpl. rewrite length_app. simpl. lia. }
  apply lookup_lt_is_Some_2 in Hlt as [h Hh].
  destruct (Timer_cancel_closes w _ h Hh) as (Hok & _).
  apply (try_finally_eq _ _ s1 w _ _ tt).
  - destruct read; apply wait_eq; auto.
  - destruct (Timer_cancel (length (timers st)) w) as [r w'].
    simpl in Hok. by subst r.
Qed.

(** C1: take a call of [trampoline] that passes its assertions and whose
    registration succeeds (the key is free), and let the suspended task be
    resumed in any way: with a value, with the timeout exception, or with an
    exception thrown into it from outside.  The outcome of the call is that
    resumption; the call registers its listener once and removes it once, and
    closes its poll handle once; the registry is afterwards what it was before
    the call; the listener's handle is None; and the timer of the call, when
    there is one, is closed. *)
Theorem trampoline_cleans_up (st : HubState) (current : Greenlet) (fd : Z)
  (read write : bool) (timeout : option Z) (timeout_exc : Exc) (x : External) :
  current <> HubGreenlet ->
  read <> write ->
  listeners st !! (fd, if read then READ else WRITE) = None ->
  undisturbed x ->
  let l := length (listener_objs st) in
  let p := length (polls st) in
  let t := length (timers st) in
  let r := trampoline current fd read write timeout timeout_exc x st in
  fst r = ext_result x /\
  listeners (snd r) = listeners st /\
  (exists evs,
      journal (snd r) = journal st ++ evs /\
      count_occ Event_eq_dec evs (EvRegister l) = 1%nat /\
      count_occ Event_eq_dec evs (EvUnregister l) = 1%nat /\
      count_occ Event_eq_dec evs (EvPollClose p) = 1%nat) /\
  (handle <$> (listener_objs (snd r) !! l)) = Some None /\
  (pyuv.poll_closed <$> (polls (snd r) !! p)) = Some true /\
  (is_Some timeout ->
   (pyuv.timer_closed <$> (timers (snd r) !! t)) = Some true).
Proof.
  intros Hcur Hrw Hfree Hx. cbv zeta.
  destruct (count_occ_wait_calls (if read then READ else WRITE) fd
              (length (listener_objs st)) (length (polls st)))
    as (Hc1 & Hc2 & Hc3).
  destruct timeout as [seconds|].
  - rewrite trampoline_eq_Some by done. cbn [fst snd].
    set (s1 := scheduled seconds (_timeout current) [VExc timeout_exc] st).
    set (w := waited (if read then READ else WRITE) fd (switch_of current) x s1).
    assert (Hfree1 : listeners s1 !! (fd, if read then READ else WRITE) = None)
      by done.
    destruct (waited_facts s1 (if read then READ else WRITE) fd
                (switch_of current) x Hfree1 Hx)
      as (Hwl & Hwo & Hwp & Hwj & Hlen).
    fold w in Hwl, Hwo, Hwp, Hwj, Hlen.
    change (length (listener_objs s1)) with (length (listener_objs st))
      in Hwo, Hwj.
    change (length (polls s1)) with (length (polls st)) in Hwp, Hwj.
    assert (Hlt : (length (timers st) < length (timers w))%nat).
    { eapply Nat.lt_le_trans; [|exact Hlen].
      unfold s1, scheduled. simpl. rewrite length_app. simpl. lia. }
    apply lookup_lt_is_Some_2 in Hlt as [h Hh].
    destruct (Timer_cancel_closes w _ h Hh)
      as (_ & (h' & Hh' & Hcl) & Hl & Ho & Hp & evs & Hj & Hevs).
    split; [done|]. split; [by rewrite Hl, Hwl|].
    split; [|split; [by rewrite Ho, Hwo|split; [by rewrite Hp|]]].
    + exists ([EvTimerNew (length (timers st));
               EvTimerStart (length (timers st)) seconds 0]
                ++ wait_calls (if read then READ else WRITE) fd
                     (length (listener_objs st)) (length (polls st))
                ++ evs).
      split.
      { rewrite Hj, Hwj. unfold s1, scheduled. simpl.
        by rewrite <- !app_assoc. }
      rewrite !count_occ_app, Hc1, Hc2, Hc3.
      rewrite !(count_occ_others evs _ _ _ Hevs) by done.
      unfold wait_calls. cbn [app].
      repeat split;
        repeat first [ rewrite count_occ_cons_eq by reflexivity
                     | rewrite count_occ_cons_neq by congruence ];
        reflexivity.
    + intros _. rewrite Hh'. simpl. by rewrite Hcl.
  - rewrite trampoline_eq_None by done. cbn [fst snd].
    destruct (waited_facts st (if read then READ else WRITE) fd
                (switch_of current) x Hfree Hx)
      as (Hwl & Hwo & Hwp & Hwj & _).
    split; [done|]. split; [done|].
    split; [|split; [by rewrite Hwo|split; [done|]]].
    + by eexists.
    + by intros [? ?].
Qed.

Lemma timer_fires_undisturbed (e : Exc) : undisturbed (timer_fires e).
Proof.
  intros [r s reg objs ps ts j]. simpl. repeat split.
  by rewrite length_fmap.
Qed.

Lemma returns_none_undisturbed : undisturbed returns_none.
Proof. by intros st. Qed.

Lemma trampoline_cleans_up_witness :
  fst (trampoline (TaskGreenlet 1) 5 false true (Some 10) TimeoutExc
         (timer_fires TimeoutExc) hub_listening) = Raise TimeoutExc /\
  listeners (snd (trampoline (TaskGreenlet 1) 5 false true (Some 10)
                    TimeoutExc (timer_fires TimeoutExc) hub_listening))
    = listeners hub_listening.
Proof.
  split.
  - destruct (trampoline_cleans_up hub_listening (TaskGreenlet 1) 5 false true
                (Some 10) TimeoutExc (timer_fires TimeoutExc))
      as (H1 & _); [done | done | reflexivity | apply timer_fires_undisturbed |].
    exact H1.
  - destruct (trampoline_cleans_up hub_listening (TaskGreenlet 1) 5 false true
                (Some 10) TimeoutExc (timer_fires TimeoutExc))
      as (_ & H2 & _); [done | done | reflexivity | apply timer_fires_undisturbed |].
    exact H2.
Defined.

(** * Further properties of the hub *)

(** ** What the methods leave alone, for any component *)

(* a leaf of a method: it reads a store, allocates, or appends to the
   journal *)
Ltac keeps_leaf :=
  intros [? ? ? ? ? ? ?];
  unfold record, get_timer, get_poll, get_listener, new_timer, new_poll,
    new_listener, modify;
  simpl; repeat case_match; reflexivity.

Ltac keeps_any := repeat first [ keeps_step | solve [keeps_leaf] ].

Lemma keeps_stopping_Timer_cancel t : keeps stopping (Timer_cancel t).
Proof.
  unfold Timer_cancel, timer_stop, timer_close, put_timer. keeps_any.
Qed.

Lemma keeps_stopping_schedule s cb args :
  keeps stopping (schedule_call_global s cb args).
Proof.
  unfold schedule_call_global, timer_start, put_timer. keeps_any.
Qed.

Lemma keeps_stopping_add e f cb tb : keeps stopping (add e f cb tb).
Proof.
  unfold add, _add_listener, poll_start, put_poll. keeps_any.
Qed.

Lemma keeps_stopping_remove l : keeps stopping (remove l).
Proof.
  unfold remove, _remove_listener, listener_handle, poll_set_ref, poll_stop,
    poll_close, clear_listener_handle, put_poll, put_listener.
  keeps_any.
Qed.

(** ** The two flags *)

Lemma flags_ok_run_with loop_run st :
  flags_ok st -> flags_ok (snd (run_with loop_run st)).
Proof.
  intros Hok. unfold run_with, bind, get, try_finally, modify. simpl.
  destruct (stopping st) eqn:Hs; [done|].
  destruct (running st) eqn:Hr; [done|].
  by destruct (loop_run _) as [[u|e] st1].
Qed.

Lemma flags_ok_keeps {A} (m : M A) st :
  keeps running m -> keeps stopping m ->
  flags_ok st -> flags_ok (snd (m st)).
Proof. intros Hr Hs Hok. unfold flags_ok. by rewrite Hr, Hs. Qed.

Lemma flags_ok_perform c st : flags_ok st -> flags_ok (snd (perform c st)).
Proof.
  destruct c; simpl.
  - intros Hok. unfold flags_ok in *.
    unfold abort, bind, get, modify, record. simpl.
    destruct (running st) eqn:Hr; simpl; rewrite ?Hr; [done|].
    intros Hs. by apply Hok.
  - apply flags_ok_run_with.
  - apply flags_ok_keeps.
    + apply keeps_bind; [apply keeps_running_add | intros; apply keeps_ret].
    + apply keeps_bind; [apply keeps_stopping_add | intros; apply keeps_ret].
  - apply flags_ok_keeps;
      [apply keeps_running_remove | apply keeps_stopping_remove].
  - apply flags_ok_keeps.
    + apply keeps_bind; [apply keeps_running_schedule | intros; apply keeps_ret].
    + apply keeps_bind; [apply keeps_stopping_schedule | intros; apply keeps_ret].
  - apply flags_ok_keeps;
      [apply keeps_running_Timer_cancel | apply keeps_stopping_Timer_cancel].
Qed.

Lemma dispatch_cons c cs st :
  snd (dispatch (c :: cs) st) = snd (dispatch cs (snd (perform c st))).
Proof. reflexivity. Qed.

Lemma dispatch_app cs1 cs2 st :
  snd (dispatch (cs1 ++ cs2) st) = snd (dispatch cs2 (snd (dispatch cs1 st))).
Proof.
  revert st. induction cs1 as [|c cs1 IH]; intros st; [done|].
  rewrite <- app_comm_cons, !dispatch_cons. apply IH.
Qed.

(** X1: whatever methods of the hub are called, in whatever order and with
    whatever outcome, [stopping] is never left set on a hub that is not
    running: [abort] sets it only while the hub runs and [run] clears it on
    its way out. *)
Theorem stopping_only_while_running (st : HubState) (cs : list HubCall) :
  (stopping st = true -> running st = true) ->
  stopping (snd (dispatch cs st)) = true ->
  running (snd (dispatch cs st)) = true.
Proof.
  revert st. induction cs as [|c cs IH]; intros st Hok; [done|].
  rewrite dispatch_cons. apply IH. by apply flags_ok_perform.
Qed.

Lemma stopping_only_while_running_witness :
  stopping (snd (dispatch [call_abort; call_run [call_abort] None]
                   hub_looping)) = true /\
  running (snd (dispatch [call_abort; call_run [call_abort] None]
                  hub_looping)) = true.
Proof.
  split; [reflexivity|].
  apply (stopping_only_while_running hub_looping
           [call_abort; call_run [call_abort] None]);
    [intros H; discriminate H | reflexivity].
Defined.

(** ** The loop is started once *)

Lemma loop_runs_snoc (st : HubState) (e : Event) :
  e <> EvLoopRun ->
  loop_runs (set_journal (journal st ++ [e]) st) = loop_runs st.
Proof.
  intros He. unfold loop_runs. simpl.
  rewrite count_occ_app, count_occ_cons_neq by done. simpl. lia.
Qed.

Lemma keeps_loop_runs_record e : e <> EvLoopRun -> keeps loop_runs (record e).
Proof. intros He st. by apply loop_runs_snoc. Qed.

Lemma keeps_loop_runs_new_timer : keeps loop_runs new_timer.
Proof.
  intros st. unfold new_timer. simpl.
  by apply (loop_runs_snoc (set_timers _ st)).
Qed.

Lemma keeps_loop_runs_new_poll f : keeps loop_runs (new_poll f).
Proof.
  intros st. unfold new_poll. simpl.
  by apply (loop_runs_snoc (set_polls _ st)).
Qed.

Ltac keeps_loop_runs :=
  repeat first
    [ apply keeps_loop_runs_record; discriminate
    | apply keeps_loop_runs_new_timer
    | apply keeps_loop_runs_new_poll
    | keeps_step
    | solve [keeps_leaf] ].

Lemma keeps_loop_runs_Timer_cancel t : keeps loop_runs (Timer_cancel t).
Proof.
  unfold Timer_cancel, timer_stop, timer_close, put_timer. keeps_loop_runs.
Qed.

Lemma keeps_loop_runs_schedule s cb args :
  keeps loop_runs (schedule_call_global s cb args).
Proof.
  unfold schedule_call_global, timer_start, put_timer. keeps_loop_runs.
Qed.

Lemma keeps_loop_runs_add e f cb tb : keeps loop_runs (add e f cb tb).
Proof.
  unfold add, _add_listener, poll_start, put_poll. keeps_loop_runs.
Qed.

Lemma keeps_loop_runs_remove l : keeps loop_runs (remove l).
Proof.
  unfold remove, _remove_listener, listener_handle, poll_set_ref, poll_stop,
    poll_close, clear_listener_handle, put_poll, put_listener.
  keeps_loop_runs.
Qed.

(* on a running hub no call of a method starts the loop *)
Lemma loop_runs_perform c st :
  running st = true -> loop_runs (snd (perform c st)) = loop_runs st.
Proof.
  intros Hr. destruct c; simpl.
  - unfold abort, bind, get, modify, record. simpl. rewrite Hr. simpl.
    by apply (loop_runs_snoc (set_stopping true st)).
  - unfold run_with, bind, get. simpl.
    destruct (stopping st); [done|]. by rewrite Hr.
  - apply keeps_bind; [apply keeps_loop_runs_add | intros; apply keeps_ret].
  - apply keeps_loop_runs_remove.
  - apply keeps_bind; [apply keeps_loop_runs_schedule | intros; apply keeps_ret].
  - apply keeps_loop_runs_Timer_cancel.
Qed.

Lemma loop_runs_dispatch cs st :
  running st = true -> loop_runs (snd (dispatch cs st)) = loop_runs st.
Proof.
  revert st. induction cs as [|c cs IH]; intros st Hr; [done|].
  rewrite dispatch_cons, IH by (by rewrite keeps_running_perform).
  by apply loop_runs_perform.
Qed.

Lemma loop_runs_during cs st : loop_runs (during cs st) = S (loop_runs st).
Proof.
  unfold during, bind, modify, record. simpl.
  rewrite loop_runs_dispatch by done.
  unfold loop_runs. simpl. rewrite count_occ_app. simpl. lia.
Qed.

(** X2: a call of [Hub.run()] that enters the loop starts the backend loop
    exactly once, whatever is called on the hub while it runs: calls of
    [run()] made from callbacks, at any depth, never start it again. *)
Theorem run_starts_loop_once (st : HubState) (script : list HubCall)
  (exit : option Exc) :
  stopping st = false ->
  running st = false ->
  loop_runs (snd (run script exit st)) = S (loop_runs st).
Proof.
  intros Hs Hr. rewrite run_enters by done. simpl.
  by rewrite <- (loop_runs_during script st).
Qed.

Lemma run_starts_loop_once_witness :
  loop_runs
    (snd (run [call_run [call_run [] None] None; call_abort;
               call_run [call_abort] (Some KeyboardInterrupt)]
            None Hub_init)) = 1%nat.
Proof.
  apply (run_starts_loop_once Hub_init
           [call_run [call_run [] None] None; call_abort;
            call_run [call_abort] (Some KeyboardInterrupt)] None);
    reflexivity.
Defined.

(** ** Hub.abort *)

Lemma during_dispatch cs st : during cs st = snd (dispatch cs (during [] st)).
Proof. reflexivity. Qed.

Lemma running_during cs st : running (during cs st) = true.
Proof.
  rewrite during_dispatch, keeps_running_dispatch. by destruct st.
Qed.

Lemma abort_running st :
  running st = true ->
  running (snd (abort st)) = true /\ stopping (snd (abort st)) = true.
Proof.
  intros Hr. unfold abort, bind, get, modify, record. simpl.
  rewrite Hr. simpl. by rewrite Hr.
Qed.

Lemma stopping_sticks_perform c st :
  running st = true -> stopping st = true ->
  stopping (snd (perform c st)) = true.
Proof.
  intros Hr Hs. destruct c; simpl.
  - by apply abort_running.
  - unfold run_with, bind, get. simpl. by rewrite Hs.
  - rewrite <- Hs.
    apply keeps_bind; [apply keeps_stopping_add | intros; apply keeps_ret].
  - rewrite <- Hs. apply keeps_stopping_remove.
  - rewrite <- Hs.
    apply keeps_bind; [apply keeps_stopping_schedule | intros; apply keeps_ret].
  - rewrite <- Hs. apply keeps_stopping_Timer_cancel.
Qed.

Lemma stopping_sticks_dispatch cs st :
  running st = true -> stopping st = true ->
  stopping (snd (dispatch cs st)) = true.
Proof.
  revert st. induction cs as [|c cs IH]; intros st Hr Hs; [done|].
  rewrite dispatch_cons. apply IH.
  - by rewrite keeps_running_perform.
  - by apply stopping_sticks_perform.
Qed.

(** X3: once [abort()] has been called while the loop runs, [stopping] stays
    true for the rest of the loop, whatever is called on the hub afterwards;
    it is cleared only when [run()] is left. *)
Theorem abort_sticks_until_exit (st : HubState) (before after : list HubCall) :
  stopping (during (before ++ call_abort :: after) st) = true.
Proof.
  rewrite during_dispatch, dispatch_app, dispatch_cons.
  rewrite <- during_dispatch.
  destruct (abort_running (during before st) (running_during before st))
    as [Hr Hs].
  by apply stopping_sticks_dispatch.
Qed.

(** X4: [abort()] on a hub that is neither running nor stopping does not set
    [stopping]: it only tells the backend loop to stop.  A [run()] that
    follows is not turned into a silent return: it enters the loop and starts
    the backend loop once. *)
Theorem abort_before_run (st : HubState) (script : list HubCall)
  (exit : option Exc) :
  running st = false ->
  stopping st = false ->
  let st1 := snd (abort st) in
  fst (abort st) = Ok tt /\
  running st1 = false /\ stopping st1 = false /\
  journal st1 = journal st ++ [EvLoopStop] /\
  fst (run script exit st1) = outcome_of exit /\
  loop_runs (snd (run script exit st1)) = S (loop_runs st).
Proof.
  intros Hr Hs. cbv zeta.
  assert (Ha : abort st = (Ok tt, set_journal (journal st ++ [EvLoopStop]) st)).
  { unfold abort, bind, get, modify, record. simpl. by rewrite Hr. }
  rewrite Ha. cbn [fst snd].
  split; [done|]. split; [by destruct st|]. split; [by destruct st|].
  split; [by destruct st|].
  rewrite run_enters by (by destruct st). cbn [fst snd].
  split; [done|].
  change (loop_runs (set_stopping false (set_running false ?s)))
    with (loop_runs s).
  by rewrite loop_runs_during, loop_runs_snoc.
Qed.

Lemma abort_before_run_witness :
  fst (run [call_abort] None (snd (abort Hub_init))) = Ok tt /\
  loop_runs (snd (run [call_abort] None (snd (abort Hub_init)))) = 1%nat.
Proof.
  destruct (abort_before_run Hub_init [call_abort] None)
    as (_ & _ & _ & _ & H5 & H6); [reflexivity | reflexivity |].
  split; [exact H5 | exact H6].
Defined.

(** ** Timers *)

(** X5: when the scheduled callback returns, [timer_callback] returns
    normally and leaves the timer handle closed, whatever the callback did to
    the hub meanwhile, provided the handle still exists: in particular a
    callback that cancels its own timer does not make the cleanup fail on a
    closed handle. *)
Theorem timer_callback_closes (st : HubState) (cb : Callable)
  (args : list Value) (x : External) (t : nat) (v : Value) :
  ext_result x = Ok v ->
  is_Some (timers (snd (invoke cb args x st)) !! t) ->
  fst (timer_callback cb args x t st) = Ok tt /\
  (pyuv.timer_closed <$> (timers (snd (timer_callback cb args x t st)) !! t))
    = Some true.
Proof.
  intros Hv [h Hh]. rewrite timer_callback_cancel. unfold bind.
  pose proof (invoke_result cb args x st) as Hr.
  destruct (invoke cb args x st) as [r st1]. simpl in Hr, Hh.
  rewrite Hr, Hv.
  destruct (Timer_cancel_closes st1 t h Hh) as (Hok & (h' & Hh' & Hc) & _).
  split; [done|]. rewrite Hh'. simpl. by rewrite Hc.
Qed.

Lemma timer_callback_closes_witness :
  fst (timer_callback (PyCallable "tick") [] (cancels_timer 0) 0
         hub_timer_pending) = Ok tt /\
  (pyuv.timer_closed <$>
     (timers (snd (timer_callback (PyCallable "tick") [] (cancels_timer 0) 0
                     hub_timer_pending)) !! 0%nat)) = Some true.
Proof.
  apply (timer_callback_closes hub_timer_pending (PyCallable "tick") []
           (cancels_timer 0) 0 VNone).
  - reflexivity.
  - eexists. reflexivity.
Defined.

Lemma keeps_listeners_Timer_cancel t : keeps listeners (Timer_cancel t).
Proof.
  unfold Timer_cancel, timer_stop, timer_close, put_timer. keeps_any.
Qed.

Lemma keeps_listener_objs_Timer_cancel t : keeps listener_objs (Timer_cancel t).
Proof.
  unfold Timer_cancel, timer_stop, timer_close, put_timer. keeps_any.
Qed.

Lemma keeps_polls_Timer_cancel t : keeps polls (Timer_cancel t).
Proof.
  unfold Timer_cancel, timer_stop, timer_close, put_timer. keeps_any.
Qed.

(** X6: [Timer.cancel] touches the handle of its own timer only: every other
    timer handle is as before, and so are the registry, the listeners, the
    poll handles and the two flags. *)
Theorem Timer_cancel_frame (st : HubState) (t t' : nat) :
  t' <> t ->
  let st' := snd (Timer_cancel t st) in
  timers st' !! t' = timers st !! t' /\
  listeners st' = listeners st /\
  listener_objs st' = listener_objs st /\
  polls st' = polls st /\
  running st' = running st /\
  stopping st' = stopping st.
Proof.
  intros Hne. cbv zeta.
  rewrite keeps_listeners_Timer_cancel, keeps_listener_objs_Timer_cancel,
    keeps_polls_Timer_cancel, keeps_running_Timer_cancel,
    keeps_stopping_Timer_cancel.
  split; [|done].
  destruct (timers st !! t) as [h|] eqn:Ht.
  - destruct (pyuv.timer_closed h) eqn:Hc.
    + by rewrite (Timer_cancel_closed st t h).
    + rewrite (Timer_cancel_open st t h) by done. simpl.
      by rewrite list_lookup_insert_ne.
  - unfold Timer_cancel, bind, get_timer. by rewrite Ht.
Qed.

Lemma Timer_cancel_frame_witness :
  timers (snd (Timer_cancel 0 hub_two_timers)) !! 1%nat =
    timers hub_two_timers !! 1%nat.
Proof.
  destruct (Timer_cancel_frame hub_two_timers 0 1) as (H & _); [done|].
  exact H.
Defined.

(** X7: a timer that is scheduled and cancelled at once is left closed; its
    callback was not called; the timers that existed before are as they were,
    and nothing else of the hub has changed.  The backend saw, in this order,
    the creation of the handle, its start (one shot: repeat 0), its stop and
    its close. *)
Theorem schedule_then_cancel_closed (st : HubState) (seconds : Z)
  (cb : Callable) (args : list Value) :
  let st' := snd (schedule_then_cancel seconds cb args st) in
  let t := length (timers st) in
  fst (schedule_then_cancel seconds cb args st) = Ok tt /\
  timers st' =
    timers st ++ [pyuv.mkTimer true false seconds 0
                    (Some (pyuv.timer_callback_closure cb args))] /\
  journal st' =
    journal st ++ [EvTimerNew t; EvTimerStart t seconds 0;
                   EvTimerStop t; EvTimerClose t] /\
  listeners st' = listeners st /\
  listener_objs st' = listener_objs st /\
  polls st' = polls st /\
  running st' = running st /\
  stopping st' = stopping st.
Proof.
  cbv zeta. unfold schedule_then_cancel.
  erewrite bind_eq by apply schedule_call_global_eq.
  rewrite (Timer_cancel_open _ _
             (pyuv.mkTimer false true seconds 0
                (Some (pyuv.timer_callback_closure cb args))));
    [|unfold scheduled; simpl; apply lookup_snoc | done].
  destruct st as [r s reg objs ps ts j]. unfold scheduled. simpl.
  rewrite insert_snoc, <- app_assoc. done.
Qed.

(** ** trampoline: the timer on every path *)

Lemma keeps_timers_add e f cb tb : keeps timers (add e f cb tb).
Proof.
  unfold add, _add_listener, poll_start, put_poll. keeps_any.
Qed.

Lemma keeps_timers_remove l : keeps timers (remove l).
Proof.
  unfold remove, _remove_listener, listener_handle, poll_set_ref, poll_stop,
    poll_close, clear_listener_handle, put_poll, put_listener.
  keeps_any.
Qed.

Lemma keeps_timer_handles_keeps {A} (m : M A) :
  keeps timers m -> keeps_timer_handles m.
Proof. intros Hk st. by rewrite Hk. Qed.

Lemma keeps_timer_handles_bind {A B} (m : M A) (k : A -> M B) :
  keeps_timer_handles m -> (forall a, keeps_timer_handles (k a)) ->
  keeps_timer_handles (bind m k).
Proof.
  intros Hm Hk st. unfold bind. specialize (Hm st).
  destruct (m st) as [[a|e] st1]; simpl in *; [|done].
  etrans; [exact Hm | apply Hk].
Qed.

Lemma keeps_timer_handles_try_finally {A} (body : M A) (cleanup : M unit) :
  keeps_timer_handles body -> keeps_timer_handles cleanup ->
  keeps_timer_handles (try_finally body cleanup).
Proof.
  intros Hb Hc st. unfold try_finally. specialize (Hb st).
  destruct (body st) as [r st1]; simpl in *. specialize (Hc st1).
  destruct (cleanup st1) as [[u|e] st2]; simpl in *; lia.
Qed.

Lemma keeps_timer_handles_switch x :
  (forall st, (length (timers st) <= length (timers (ext_effect x st)))%nat) ->
  keeps_timer_handles (switch x).
Proof.
  intros Hx st. unfold switch, bind, record, external. simpl.
  etrans; [|apply Hx]. by destruct st.
Qed.

Lemma try_finally_snd {A} (body : M A) (cleanup : M unit) st :
  snd (try_finally body cleanup st) = snd (cleanup (snd (body st))).
Proof.
  unfold try_finally. destruct (body st) as [r st1]. simpl.
  by destruct (cleanup st1) as [[u|e] st2].
Qed.

(** X8: in a call of [trampoline] with a timeout that passes its assertions,
    the timer of the call is closed when the call ends, on every path: whether
    [hub.add] raises, however the task is resumed, and whether or not
    [hub.remove] raises.  Nothing is assumed of the rest of the program but
    that timer handles do not disappear. *)
Theorem trampoline_always_cancels_timer (st : HubState) (current : Greenlet)
  (fd : Z) (read write : bool) (seconds : Z) (timeout_exc : Exc)
  (x : External) :
  current <> HubGreenlet ->
  read <> write ->
  (forall s, (length (timers s) <= length (timers (ext_effect x s)))%nat) ->
  (pyuv.timer_closed <$>
     (timers (snd (trampoline current fd read write (Some seconds) timeout_exc
                     x st)) !! length (timers st))) = Some true.
Proof.
  intros Hcur Hrw Hx. unfold trampoline.
  rewrite (bool_decide_eq_false_2 (HubGreenlet = current)) by congruence.
  replace (xorb read write) with true by (by destruct read, write).
  erewrite bind_eq by reflexivity.
  erewrite bind_eq by reflexivity.
  erewrite bind_eq
    by (erewrite bind_eq by apply schedule_call_global_eq; reflexivity).
  rewrite try_finally_snd.
  set (s1 := scheduled seconds (_timeout current) [VExc timeout_exc] st).
  match goal with |- context [Timer_cancel _ (snd (?b s1))] =>
    assert (Hb : keeps_timer_handles b); [|specialize (Hb s1); set (s2 := snd (b s1)) in *]
  end.
  { apply keeps_timer_handles_bind.
    - destruct read; apply keeps_timer_handles_keeps, keeps_timers_add.
    - intros l. apply keeps_timer_handles_try_finally.
      + by apply keeps_timer_handles_switch.
      + apply keeps_timer_handles_keeps, keeps_timers_remove. }
  assert (Hlt : (length (timers st) < length (timers s2))%nat).
  { eapply Nat.lt_le_trans; [|exact Hb].
    unfold s1, scheduled. simpl. rewrite length_app. simpl. lia. }
  apply lookup_lt_is_Some_2 in Hlt as [h Hh].
  destruct (Timer_cancel_closes s2 _ h Hh) as (_ & (h' & Hh' & Hc) & _).
  rewrite Hh'. simpl. by rewrite Hc.
Qed.

Lemma trampoline_always_cancels_timer_witness :
  (* the poll handle was closed behind the hub: [hub.remove] raises *)
  fst (trampoline (TaskGreenlet 1) 5 true false (Some 10) TimeoutExc
         (closes_polls KeyboardInterrupt) Hub_init) = Raise HandleClosedError /\
  (pyuv.timer_closed <$>
     (timers (snd (trampoline (TaskGreenlet 1) 5 true false (Some 10)
                     TimeoutExc (closes_polls KeyboardInterrupt) Hub_init))
        !! 0%nat)) = Some true.
Proof.
  split; [reflexivity|].
  apply (trampoline_always_cancels_timer Hub_init (TaskGreenlet 1) 5 true
           false 10 TimeoutExc (closes_polls KeyboardInterrupt));
    [done | done |].
  intros s. simpl. lia.
Defined.

(** ** trampoline: a registration that fails *)

Lemma bind_raise {A B} (m : M A) (k : A -> M B) (st : HubState) (e : Exc) :
  fst (m st) = Raise e -> bind m k st = (Raise e, snd (m st)).
Proof. intros H. unfold bind. destruct (m st) as [[a|e'] st1]; by simplify_eq/=. Qed.

(** X9: when [hub.add] raises inside [trampoline] (the descriptor already has
    a listener for that direction), the task is not suspended and
    [hub.remove] is not called: the exception of [hub.add] is the outcome of
    the call, what the rest of the program would have done on resumption
    plays no part, the registry is unchanged, and the timer of the call, if
    any, is closed. *)
Theorem trampoline_registration_fails (st : HubState) (current : Greenlet)
  (fd : Z) (read write : bool) (timeout : option Z) (timeout_exc : Exc)
  (x : External) (l : nat) :
  current <> HubGreenlet ->
  read <> write ->
  listeners st !! (fd, if read then READ else WRITE) = Some l ->
  let r := trampoline current fd read write timeout timeout_exc x st in
  fst r = Raise (RuntimeError "a listener is already registered") /\
  (forall x', trampoline current fd read write timeout timeout_exc x' st = r) /\
  listeners (snd r) = listeners st /\
  (is_Some timeout ->
   (pyuv.timer_closed <$> (timers (snd r) !! length (timers st))) = Some true).
Proof.
  intros Hcur Hrw Htaken. cbv zeta.
  assert (Heq : forall x0,
    trampoline current fd read write timeout timeout_exc x0 st =
      match timeout with
      | Some seconds =>
          let s1 := scheduled seconds (_timeout current) [VExc timeout_exc] st in
          let s2 := snd (add (if read then READ else WRITE) fd
                           (switch_of current) (throw_of current) s1) in
          (Raise (RuntimeError "a listener is already registered"),
           snd (Timer_cancel (length (timers st)) s2))
      | None =>
          (Raise (RuntimeError "a listener is already registered"),
           snd (add (if read then READ else WRITE) fd
                  (switch_of current) (throw_of current) st))
      end).
  { intros x0. unfold trampoline.
    rewrite (bool_decide_eq_false_2 (HubGreenlet = current)) by congruence.
    replace (xorb read write) with true by (by destruct read, write).
    erewrite bind_eq by reflexivity.
    erewrite bind_eq by reflexivity.
    destruct timeout as [seconds|].
    - erewrite bind_eq
        by (erewrite bind_eq by apply schedule_call_global_eq; reflexivity).
      cbv zeta.
      set (s1 := scheduled seconds (_timeout current) [VExc timeout_exc] st).
      assert (Ht1 : listeners s1 !! (fd, if read then READ else WRITE) = Some l)
        by done.
      destruct (add_taken s1 _ fd (switch_of current) (throw_of current) l
                  (direction_of_flag read) Ht1)
        as [Hf _].
      set (s2 := snd (add (if read then READ else WRITE) fd
                        (switch_of current) (throw_of current) s1)).
      assert (Hlt : (length (timers st) < length (timers s2))%nat).
      { unfold s2. rewrite keeps_timers_add. unfold s1, scheduled. simpl.
        rewrite length_app. simpl. lia. }
      apply lookup_lt_is_Some_2 in Hlt as [h Hh].
      destruct (Timer_cancel_closes s2 _ h Hh) as (Hok & _).
      apply (try_finally_eq _ _ s1 s2 _ _ tt).
      + destruct read; by apply bind_raise.
      + destruct (Timer_cancel (length (timers st)) s2) as [r0 w'].
        simpl in Hok. by subst r0.
    - erewrite bind_eq by reflexivity.
      destruct (add_taken st _ fd (switch_of current) (throw_of current) l
                  (direction_of_flag read) Htaken) as [Hf _].
      eapply (try_finally_eq _ _ st _ _ _ tt); [|reflexivity].
      destruct read; by apply bind_raise. }
  split; [rewrite Heq; by destruct timeout|].
  split; [intros x'; by rewrite !Heq|].
  rewrite Heq. destruct timeout as [seconds|]; cbv zeta; cbn [fst snd].
  - set (s1 := scheduled seconds (_timeout current) [VExc timeout_exc] st).
    assert (Ht1 : listeners s1 !! (fd, if read then READ else WRITE) = Some l)
      by done.
    destruct (add_taken s1 _ fd (switch_of current) (throw_of current) l
                  (direction_of_flag read) Ht1)
      as [_ Hl].
    set (s2 := snd (add (if read then READ else WRITE) fd
                      (switch_of current) (throw_of current) s1)) in *.
    assert (Hlt : (length (timers st) < length (timers s2))%nat).
    { unfold s2. rewrite keeps_timers_add. unfold s1, scheduled. simpl.
      rewrite length_app. simpl. lia. }
    apply lookup_lt_is_Some_2 in Hlt as [h Hh].
    destruct (Timer_cancel_closes s2 _ h Hh)
      as (_ & (h' & Hh' & Hc) & Hls & _).
    split; [by rewrite Hls, Hl|].
    intros _. rewrite Hh'. simpl. by rewrite Hc.
  - destruct (add_taken st _ fd (switch_of current) (throw_of current) l
                (direction_of_flag read) Htaken) as [_ Hl].
    split; [done|]. by intros [? ?].
Qed.

Lemma trampoline_registration_fails_witness :
  fst (trampoline (TaskGreenlet 2) 5 true false (Some 10) TimeoutExc
         returns_none hub_listening) =
    Raise (RuntimeError "a listener is already registered") /\
  listeners (snd (trampoline (TaskGreenlet 2) 5 true false (Some 10)
                    TimeoutExc returns_none hub_listening)) =
    listeners hub_listening.
Proof.
  destruct (trampoline_registration_fails hub_listening (TaskGreenlet 2) 5
              true false (Some 10) TimeoutExc returns_none 0)
    as (H1 & _ & H3 & _); [done | done | reflexivity |].
  split; [exact H1 | exact H3].
Defined.

(** ** Hub.add and Hub.remove: failures *)

(** X10: when [Hub.add] fails because the (descriptor, direction) already has
    a listener, it has already created a poll handle for the descriptor: the
    handle stays in the loop, never started and never closed; the registry is
    unchanged.  The failure is the [RuntimeError] of the registry for the
    directions READ and WRITE (for any other value of [evtype] the listener
    constructor has failed before, to the same effect). *)
Theorem add_taken_leaves_handle (st : HubState) (evtype : string) (fd : Z)
  (cb tb : Callable) (l : nat) :
  listeners st !! (fd, evtype) = Some l ->
  let st' := snd (add evtype fd cb tb st) in
  fst (add evtype fd cb tb st) =
    Raise (if bool_decide (evtype = READ) || bool_decide (evtype = WRITE)
           then RuntimeError "a listener is already registered"
           else AssertionError "evtype is neither READ nor WRITE") /\
  listeners st' = listeners st /\
  polls st' = polls st ++ [pyuv.mkPoll fd false false true 0 None] /\
  journal st' = journal st ++ [EvPollNew (length (polls st)) fd] /\
  timers st' = timers st.
Proof.
  intros Htaken. destruct st as [r s reg objs ps ts j]. simpl in Htaken.
  unfold add, new_poll, new_listener, _add_listener, bind, get_listener, get.
  destruct (bool_decide (evtype = READ) || bool_decide (evtype = WRITE));
    [|done].
  simpl. rewrite lookup_snoc. simpl. by rewrite Htaken.
Qed.

Lemma add_taken_leaves_handle_witness :
  fst (add READ 5 (PyCallable "again") (PyCallable "closed") hub_listening) =
    Raise (RuntimeError "a listener is already registered") /\
  polls (snd (add READ 5 (PyCallable "again") (PyCallable "closed")
                hub_listening)) =
    polls hub_listening ++ [pyuv.mkPoll 5 false false true 0 None].
Proof.
  destruct (add_taken_leaves_handle hub_listening READ 5 (PyCallable "again")
              (PyCallable "closed") 0) as (H1 & _ & H3 & _); [reflexivity|].
  split; [exact H1 | exact H3].
Defined.

(** X11: [Hub.remove] of a registered listener whose poll handle is already
    closed raises [HandleClosedError] at [stop()].  By then the listener is
    out of the registry and [ref = False] was set; [close()] is not called and
    the listener keeps its handle: the teardown stops half way. *)
Theorem remove_closed_handle (st : HubState) (l p : nat) (o : UvFdListener)
  (h : pyuv.Poll) :
  listener_objs st !! l = Some o ->
  handle o = Some p ->
  listeners st !! (fd o, evtype o) = Some l ->
  polls st !! p = Some h ->
  pyuv.poll_closed h = true ->
  let st' := snd (remove l st) in
  fst (remove l st) = Raise HandleClosedError /\
  listeners st' = delete (fd o, evtype o) (listeners st) /\
  listener_objs st' = listener_objs st /\
  journal st' =
    journal st ++ [EvUnregister l; EvPollRef p false; EvPollStop p].
Proof.
  intros Ho Hh Hreg Hp Hc.
  pose proof (lookup_lt_Some _ _ _ Hp) as Hlt.
  destruct st as [r s reg objs ps ts j]. simpl in *.
  unfold remove, _remove_listener, listener_handle, poll_set_ref, poll_stop,
    poll_close, clear_listener_handle, put_poll, put_listener, get_listener,
    get_poll, bind, get, record, modify, lift, ret,
    pyuv.Poll_stop, pyuv.Poll_set_ref.
  simpl. rewrite Ho. simpl. rewrite Hreg. simpl.
  rewrite bool_decide_eq_true_2 by done. simpl.
  rewrite Ho, Hh. simpl. rewrite Hp. simpl.
  rewrite Ho, Hh. simpl. rewrite list_lookup_insert_eq by done. simpl.
  rewrite Hc. simpl. by rewrite <- !app_assoc.
Qed.

Lemma remove_closed_handle_witness :
  fst (remove 0 hub_poll_closed) = Raise HandleClosedError /\
  listeners (snd (remove 0 hub_poll_closed)) = ∅ /\
  listener_objs (snd (remove 0 hub_poll_closed)) =
    [mkListener READ 5 (Some 0%nat)].
Proof.
  destruct (remove_closed_handle hub_poll_closed 0 0
              (mkListener READ 5 (Some 0%nat))
              (closed_poll
                 (pyuv.mkPoll 5 false true true 1
                    (Some (pyuv.pyuv_cb_closure (switch_of (TaskGreenlet 1)))))))
    as (H1 & H2 & H3 & _); try reflexivity.
  split; [exact H1|]. split; [|exact H3].
  rewrite H2. reflexivity.
Defined.

(** ** Hub.signal_received *)

(** X12: on SIGINT, [signal_received] first stops the signal handle: when
    that fails, on a closed handle, the hub is not aborted and nothing is
    thrown.  Otherwise the handle is left inactive, the hub is aborted
    ([stopping] is set if the hub runs, and the backend loop is told to stop),
    and only then [KeyboardInterrupt] is thrown into the parent greenlet,
    once; the handle is stopped however that throw ends, and the handler
    itself leaves the registry and the handles of the hub untouched.  Any
    other signal number leaves the hub and the signal handle as they are. *)
Theorem signal_received_SIGINT (st : HubState) (parent : Greenlet)
  (x : External) (sig_handle : SignalHandle) (signo : Z) :
  let r := signal_received parent x sig_handle signo st in
  (signo <> SIGINT -> r = (Ok tt, (sig_handle, st))) /\
  (signo = SIGINT -> sig_closed sig_handle = true ->
   r = (Raise HandleClosedError, (sig_handle, st))) /\
  (signo = SIGINT -> sig_closed sig_handle = false ->
   fst r = match ext_result x with Ok _ => Ok tt | Raise e => Raise e end /\
   fst (snd r) = mkSignal false false (sig_signum sig_handle) /\
   exists st1,
     snd (snd r) = ext_effect x st1 /\
     journal st1 =
       journal st ++
         [EvLoopStop; EvCall (throw_of parent) [VExc KeyboardInterrupt]] /\
     running st1 = running st /\
     stopping st1 = running st || stopping st /\
     listeners st1 = listeners st /\
     listener_objs st1 = listener_objs st /\
     polls st1 = polls st /\
     timers st1 = timers st).
Proof.
  cbv zeta. split; [|split].
  - intros Hne. unfold signal_received.
    by rewrite (proj2 (Z.eqb_neq signo SIGINT) Hne).
  - intros -> Hc. unfold signal_received, Signal_stop. by rewrite Hc.
  - intros -> Hc. unfold signal_received, Signal_stop. rewrite Hc. simpl.
    unfold abort, call, external, bind, get, modify, record. simpl.
    destruct st as [r s reg objs ps ts j]. simpl.
    destruct r; simpl; destruct (ext_result x); simpl;
      (split; [done|]); (split; [done|]);
      eexists; (split; [reflexivity|]); simpl;
      by rewrite <- app_assoc.
Qed.

Lemma signal_received_SIGINT_witness :
  (* SIGINT on a running hub *)
  fst (signal_received (TaskGreenlet 0) interrupted (Signal_started SIGINT)
         SIGINT hub_looping) = Raise KeyboardInterrupt /\
  sig_active (fst (snd (signal_received (TaskGreenlet 0) interrupted
                          (Signal_started SIGINT) SIGINT hub_looping)))
    = false /\
  (* SIGINT, the signal handle being closed *)
  signal_received (TaskGreenlet 0) interrupted (mkSignal true false SIGINT)
    SIGINT hub_looping =
    (Raise HandleClosedError, (mkSignal true false SIGINT, hub_looping)) /\
  (* another signal *)
  signal_received (TaskGreenlet 0) interrupted (Signal_started SIGINT) 15
    hub_looping = (Ok tt, (Signal_started SIGINT, hub_looping)).
Proof.
  destruct (signal_received_SIGINT hub_looping (TaskGreenlet 0) interrupted
              (Signal_started SIGINT) SIGINT) as (_ & _ & H).
  destruct (H eq_refl eq_refl) as (Hr & Hs & _).
  destruct (signal_received_SIGINT hub_looping (TaskGreenlet 0) interrupted
              (mkSignal true false SIGINT) SIGINT) as (_ & Hclosed & _).
  destruct (signal_received_SIGINT hub_looping (TaskGreenlet 0) interrupted
              (Signal_started SIGINT) 15) as (Hother & _).
  split; [exact Hr|]. split; [by rewrite Hs|].
  split; [by apply Hclosed | by apply Hother].
Defined.

(** ** trampoline after trampoline *)

Lemma trampoline_outcome (st : HubState) (current : Greenlet) (fd : Z)
  (read write : bool) (timeout : option Z) (timeout_exc : Exc) (x : External) :
  current <> HubGreenlet ->
  read <> write ->
  listeners st !! (fd, if read then READ else WRITE) = None ->
  undisturbed x ->
  fst (trampoline current fd read write timeout timeout_exc x st)
    = ext_result x /\
  listeners (snd (trampoline current fd read write timeout timeout_exc x st))
    = listeners st.
Proof.
  intros Hcur Hrw Hfree Hx. destruct timeout as [seconds|].
  - rewrite trampoline_eq_Some by done. cbn [fst snd]. split; [done|].
    set (s1 := scheduled seconds (_timeout current) [VExc timeout_exc] st).
    assert (Hfree1 : listeners s1 !! (fd, if read then READ else WRITE) = None)
      by done.
    destruct (waited_facts s1 (if read then READ else WRITE) fd
                (switch_of current) x Hfree1 Hx) as (Hwl & _).
    by rewrite keeps_listeners_Timer_cancel, Hwl.
  - rewrite trampoline_eq_None by done. cbn [fst snd]. split; [done|].
    by destruct (waited_facts st (if read then READ else WRITE) fd
                   (switch_of current) x Hfree Hx) as (Hwl & _).
Qed.

Lemma count_occ_wait_calls_switch (evtype : string) (fd : Z) (l p : nat) :
  count_occ Event_eq_dec (wait_calls evtype fd l p) EvSwitch = 1%nat.
Proof.
  unfold wait_calls, teardown. cbn [app].
  repeat first [ rewrite count_occ_cons_eq by reflexivity
               | rewrite count_occ_cons_neq by congruence ];
    reflexivity.
Qed.

(* what a call of [trampoline] whose registration succeeds adds to the
   journal: one registration and one removal of its listener, one suspension *)
Lemma trampoline_calls (st : HubState) (current : Greenlet) (fd : Z)
  (read write : bool) (timeout : option Z) (timeout_exc : Exc) (x : External) :
  current <> HubGreenlet ->
  read <> write ->
  listeners st !! (fd, if read then READ else WRITE) = None ->
  undisturbed x ->
  exists evs,
    journal (snd (trampoline current fd read write timeout timeout_exc x st))
      = journal st ++ evs /\
    count_occ Event_eq_dec evs (EvRegister (length (listener_objs st)))
      = 1%nat /\
    count_occ Event_eq_dec evs (EvUnregister (length (listener_objs st)))
      = 1%nat /\
    count_occ Event_eq_dec evs EvSwitch = 1%nat.
Proof.
  intros Hcur Hrw Hfree Hx.
  destruct (count_occ_wait_calls (if read then READ else WRITE) fd
              (length (listener_objs st)) (length (polls st)))
    as (Hc1 & Hc2 & _).
  pose proof (count_occ_wait_calls_switch (if read then READ else WRITE) fd
                (length (listener_objs st)) (length (polls st))) as Hc3.
  destruct timeout as [seconds|].
  - rewrite trampoline_eq_Some by done. cbn [snd].
    set (s1 := scheduled seconds (_timeout current) [VExc timeout_exc] st).
    set (w := waited (if read then READ else WRITE) fd (switch_of current) x s1).
    assert (Hfree1 : listeners s1 !! (fd, if read then READ else WRITE) = None)
      by done.
    destruct (waited_facts s1 (if read then READ else WRITE) fd
                (switch_of current) x Hfree1 Hx)
      as (_ & _ & _ & Hwj & Hlen).
    fold w in Hwj, Hlen.
    change (length (listener_objs s1)) with (length (listener_objs st)) in Hwj.
    change (length (polls s1)) with (length (polls st)) in Hwj.
    assert (Hlt : (length (timers st) < length (timers w))%nat).
    { eapply Nat.lt_le_trans; [|exact Hlen].
      unfold s1, scheduled. simpl. rewrite length_app. simpl. lia. }
    apply lookup_lt_is_Some_2 in Hlt as [h Hh].
    destruct (Timer_cancel_closes w _ h Hh)
      as (_ & _ & _ & _ & _ & evs & Hj & Hevs).
    exists ([EvTimerNew (length (timers st));
             EvTimerStart (length (timers st)) seconds 0]
              ++ wait_calls (if read then READ else WRITE) fd
                   (length (listener_objs st)) (length (polls st))
              ++ evs).
    split.
    { rewrite Hj, Hwj. unfold s1, scheduled. simpl. by rewrite <- !app_assoc. }
    rewrite !count_occ_app, Hc1, Hc2, Hc3.
    rewrite !(count_occ_others evs _ _ _ Hevs) by done.
    repeat split;
      repeat first [ rewrite count_occ_cons_eq by reflexivity
                   | rewrite count_occ_cons_neq by congruence ];
      reflexivity.
  - rewrite trampoline_eq_None by done. cbn [snd].
    destruct (waited_facts st (if read then READ else WRITE) fd
                (switch_of current) x Hfree Hx) as (_ & _ & _ & Hwj & _).
    by eexists.
Qed.

(** X13: a descriptor can be waited on again as soon as a wait on it has
    ended, however it ended: after a call of [trampoline] whose registration
    succeeded, a second call for the same descriptor and direction, by the
    same or another task, registers a listener of its own, suspends the task
    once, removes that listener once, ends as its own resumption says, and
    leaves the registry as it was before the first call. *)
Theorem trampoline_twice (st : HubState) (current current' : Greenlet)
  (fd : Z) (read write : bool) (timeout timeout' : option Z)
  (timeout_exc timeout_exc' : Exc) (x x' : External) :
  current <> HubGreenlet ->
  current' <> HubGreenlet ->
  read <> write ->
  listeners st !! (fd, if read then READ else WRITE) = None ->
  undisturbed x ->
  undisturbed x' ->
  let st1 := snd (trampoline current fd read write timeout timeout_exc x st) in
  let r2 := trampoline current' fd read write timeout' timeout_exc' x' st1 in
  fst r2 = ext_result x' /\
  listeners (snd r2) = listeners st /\
  exists evs,
    journal (snd r2) = journal st1 ++ evs /\
    count_occ Event_eq_dec evs (EvRegister (length (listener_objs st1)))
      = 1%nat /\
    count_occ Event_eq_dec evs (EvUnregister (length (listener_objs st1)))
      = 1%nat /\
    count_occ Event_eq_dec evs EvSwitch = 1%nat.
Proof.
  intros Hcur Hcur' Hrw Hfree Hx Hx'. cbv zeta.
  destruct (trampoline_outcome st current fd read write timeout timeout_exc x)
    as [_ Hl1]; try done.
  assert (Hfree1 :
    listeners (snd (trampoline current fd read write timeout timeout_exc x st))
      !! (fd, if read then READ else WRITE) = None) by (by rewrite Hl1).
  destruct (trampoline_outcome
              (snd (trampoline current fd read write timeout timeout_exc x st))
              current' fd read write timeout' timeout_exc' x')
    as [Hr2 Hl2]; try done.
  split; [done|]. split; [by rewrite Hl2|].
  by apply trampoline_calls.
Qed.

Lemma trampoline_twice_witness :
  fst (trampoline (TaskGreenlet 2) 5 true false None TimeoutExc returns_none
         (snd (trampoline (TaskGreenlet 1) 5 true false (Some 10) TimeoutExc
                 (timer_fires TimeoutExc) Hub_init)))
    = Ok VNone.
Proof.
  destruct (trampoline_twice Hub_init (TaskGreenlet 1) (TaskGreenlet 2) 5
              true false (Some 10) None TimeoutExc TimeoutExc
              (timer_fires TimeoutExc) returns_none) as [H _];
    [done | done | done | reflexivity | apply timer_fires_undisturbed
    | apply returns_none_undisturbed |].
  exact H.
Defined.

(** ** Hub.add: both directions *)

(** X14: a read listener and a write listener can be registered for the same
    descriptor: the second [Hub.add] does not fail; each listener gets a poll
    handle of its own on that descriptor, started with UV_READABLE for the one
    and UV_WRITABLE for the other. *)
Theorem add_read_and_write (st : HubState) (fd : Z) (cb tb cb' tb' : Callable) :
  listeners st !! (fd, READ) = None ->
  listeners st !! (fd, WRITE) = None ->
  let l := length (listener_objs st) in
  let p := length (polls st) in
  let r := (lr <- add READ fd cb tb ;;
            lw <- add WRITE fd cb' tb' ;;
            ret (lr, lw)) st in
  fst r = Ok (l, S l) /\
  listeners (snd r) =
    <[(fd, WRITE) := S l]> (<[(fd, READ) := l]> (listeners st)) /\
  polls (snd r) =
    polls st ++
      [pyuv.mkPoll fd false true true pyuv.UV_READABLE
         (Some (pyuv.pyuv_cb_closure cb));
       pyuv.mkPoll fd false true true pyuv.UV_WRITABLE
         (Some (pyuv.pyuv_cb_closure cb'))].
Proof.
  intros Hr Hw. cbv zeta.
  erewrite bind_eq by (apply add_free; auto).
  erewrite bind_eq.
  2: { apply add_free; [auto|]. unfold added. simpl.
       rewrite lookup_insert_ne; [done|]. intros [=]. }
  unfold ret, added. simpl.
  rewrite !length_app. simpl. rewrite Nat.add_1_r.
  split; [done|]. split; [done|]. by rewrite <- app_assoc.
Qed.

Lemma add_read_and_write_witness :
  fst ((lr <- add READ 5 (PyCallable "r") (PyCallable "rc") ;;
        lw <- add WRITE 5 (PyCallable "w") (PyCallable "wc") ;;
        ret (lr, lw)) Hub_init) = Ok (0%nat, 1%nat).
Proof.
  destruct (add_read_and_write Hub_init 5 (PyCallable "r") (PyCallable "rc")
              (PyCallable "w") (PyCallable "wc")) as [H _];
    [reflexivity | reflexivity |].
  exact H.
Defined.

(** ** trampoline: the other tasks *)

Lemma waited_frame (st : HubState) (evtype : string) (fd : Z) (cb : Callable)
  (x : External) (i : nat) :
  undisturbed x ->
  let w := waited evtype fd cb x st in
  ((i < length (listener_objs st))%nat ->
   listener_objs w !! i = listener_objs st !! i) /\
  ((i < length (polls st))%nat -> polls w !! i = polls st !! i).
Proof.
  intros Hx. cbv zeta.
  destruct (Hx (set_journal (journal (added evtype fd cb st) ++ [EvSwitch])
                  (added evtype fd cb st))) as (_ & Ho & Hp & _).
  change (ext_effect x _) with (resumed evtype fd cb x st) in Ho, Hp.
  unfold waited, removed. cbn [listener_objs polls].
  rewrite Ho, Hp. simpl. split; intros Hi.
  - rewrite list_lookup_insert_ne by lia. by rewrite lookup_app_l.
  - rewrite list_lookup_insert_ne by lia. by rewrite lookup_app_l.
Qed.

(** X15: a wait does not disturb the listeners of other tasks: after a call
    of [trampoline] whose registration succeeded, every listener object and
    every poll handle that existed before the call is as it was, and so is the
    registry, provided the rest of the program left them alone while the task
    was suspended. *)
Theorem trampoline_frame (st : HubState) (current : Greenlet) (fd : Z)
  (read write : bool) (timeout : option Z) (timeout_exc : Exc) (x : External)
  (i : nat) :
  current <> HubGreenlet ->
  read <> write ->
  listeners st !! (fd, if read then READ else WRITE) = None ->
  undisturbed x ->
  let st' := snd (trampoline current fd read write timeout timeout_exc x st) in
  listeners st' = listeners st /\
  ((i < length (listener_objs st))%nat ->
   listener_objs st' !! i = listener_objs st !! i) /\
  ((i < length (polls st))%nat -> polls st' !! i = polls st !! i).
Proof.
  intros Hcur Hrw Hfree Hx. cbv zeta.
  split; [by apply trampoline_outcome|].
  destruct timeout as [seconds|].
  - rewrite trampoline_eq_Some by done. cbn [snd].
    rewrite keeps_listener_objs_Timer_cancel, keeps_polls_Timer_cancel.
    apply (waited_frame
             (scheduled seconds (_timeout current) [VExc timeout_exc] st)).
    done.
  - rewrite trampoline_eq_None by done. cbn [snd]. by apply waited_frame.
Qed.

Lemma trampoline_frame_witness :
  polls (snd (trampoline (TaskGreenlet 2) 6 false true (Some 10) TimeoutExc
                (timer_fires TimeoutExc) hub_busy)) !! 0%nat =
    polls hub_busy !! 0%nat.
Proof.
  destruct (trampoline_frame hub_busy (TaskGreenlet 2) 6 false true (Some 10)
              TimeoutExc (timer_fires TimeoutExc) 0)
    as (_ & _ & H);
    [done | done | reflexivity | apply timer_fires_undisturbed |].
  apply H. vm_compute. lia.
Defined.
